(** * Permission-scoped CRUD controller (src/crud-controller.ts)

    A shallow embedding of [CrudController]: the permission compiler
    [getWhereRestrictionsByPermissions], the query assembly of
    [getQueryBuilder] and the create and update handlers, together with
    the fragment of the host language and of the query builder that the
    controller drives. *)

From Stdlib Require Import ZArith String Ascii List Bool Lia.
From stdpp Require Import base option list strings gmap pretty.

Set Warnings "-register-all".

Local Open Scope string_scope.
Local Open Scope Z_scope.

(** ** Host-language values

    The controller receives its query as an untyped object.  The values
    below are the ones a flat query string or a JSON body of scalars and
    arrays can carry.  A string is a sequence of code units below 256.
    A Number is NaN or [Int z], the double nearest to the integer [z]:
    [z] itself up to 2^53 in magnitude, and an infinity from the
    magnitude [overflow] on.  The arithmetic below gives a value to a
    product only when a double holds it exactly. *)
Module JS.

Inductive number :=
| Int (z : Z)
| NaN.

Inductive value :=
| Undefined
| Null
| Bool (b : bool)
| Num (n : number)
| Str (s : string)
| Arr (items : list value).

(** An object used as a string-keyed record. *)
Abbreviation Obj := (gmap string value).

(** [o[k]]: reading a property that is not there gives [undefined]. *)
Definition get (o : Obj) (k : string) : value :=
  default Undefined (o !! k).

(** ToBoolean, as applied by [if], [&&] and [||]. *)
Definition truthy (v : value) : bool :=
  match v with
  | Undefined | Null => false
  | Bool b => b
  | Num (Int z) => negb (z =? 0)
  | Num NaN => false
  | Str s => negb (String.eqb s "")
  | Arr _ => true
  end.

(** [a || b] *)
Definition or_else (a b : value) : value :=
  if truthy a then a else b.

(** [typeof v !== 'undefined'] *)
Definition defined (v : value) : bool :=
  match v with
  | Undefined => false
  | _ => true
  end.

(** [Array.isArray(v)] *)
Definition isArray (v : value) : bool :=
  match v with
  | Arr _ => true
  | _ => false
  end.

(** [v === s] for a string literal [s]. *)
Definition strict_eq_string (v : value) (s : string) : bool :=
  match v with
  | Str s' => String.eqb s' s
  | _ => false
  end.

(** ToString, as applied by template literals and by [parseInt]. *)
Fixpoint to_string (v : value) : string :=
  match v with
  | Undefined => "undefined"
  | Null => "null"
  | Bool true => "true"
  | Bool false => "false"
  | Num (Int z) => pretty z
  | Num NaN => "NaN"
  | Str s => s
  | Arr items =>
      (fix join (l : list value) : string :=
         match l with
         | [] => ""
         | x :: rest =>
             let here :=
               match x with
               | Undefined | Null => ""
               | _ => to_string x
               end in
             match rest with
             | [] => here
             | _ :: _ => here +:+ "," +:+ join rest
             end
         end) items
  end.

Definition is_white_space (c : ascii) : bool :=
  let n := N_of_ascii c in
  ((9 <=? n) && (n <=? 13) || (n =? 32) || (n =? 160))%N.

Definition digit_of (c : ascii) : option Z :=
  let n := Z.of_N (N_of_ascii c) in
  if (48 <=? n) && (n <=? 57) then Some (n - 48) else None.

Fixpoint trim_start (s : string) : string :=
  match s with
  | String c rest => if is_white_space c then trim_start rest else s
  | EmptyString => EmptyString
  end.

Definition trim_end (s : string) : string :=
  String.rev (trim_start (String.rev s)).

(** The longest prefix of decimal digits: its value, whether it is
    non-empty, and what follows it. *)
Fixpoint digits (acc : Z) (seen : bool) (s : string) : Z * bool * string :=
  match s with
  | String c rest =>
      match digit_of c with
      | Some d => digits (10 * acc + d) true rest
      | None => (acc, seen, s)
      end
  | EmptyString => (acc, seen, s)
  end.

(** An optional sign, and the rest of the string. *)
Definition sign (s : string) : Z * string :=
  match s with
  | String "-" rest => (-1, rest)
  | String "+" rest => (1, rest)
  | _ => (1, s)
  end.

(** [parseInt(v, 10)]: leading white space is skipped, an optional sign
    is read, then the longest run of digits; no digit gives NaN. *)
Definition parseInt (v : value) : number :=
  let '(sg, body) := sign (trim_start (to_string v)) in
  match digits 0 false body with
  | (n, true, _) => Int (sg * n)
  | (_, false, _) => NaN
  end.

(** The integers that a Number holds exactly. *)
Definition safe (z : Z) : bool := Z.abs z <=? 2 ^ 53.

(** From this magnitude on, the nearest double is an infinity. *)
Definition overflow : Z := 2 ^ 1024 - 2 ^ 970.

Definition infinite (z : Z) : bool := overflow <=? Z.abs z.

(** A digit in the given base (2, 8, 10 or 16). *)
Definition digit_in (base : Z) (c : ascii) : option Z :=
  let n := Z.of_N (N_of_ascii c) in
  let d :=
    if (48 <=? n) && (n <=? 57) then Some (n - 48)
    else if (97 <=? n) && (n <=? 102) then Some (n - 87)
    else if (65 <=? n) && (n <=? 70) then Some (n - 55)
    else None in
  match d with
  | Some d => if d <? base then Some d else None
  | None => None
  end.

(** The longest prefix of digits: the value it gives after [acc], the
    number of digits read, and what follows. *)
Fixpoint digits_in (base acc : Z) (count : nat) (s : string)
    : Z * nat * string :=
  match s with
  | String c rest =>
      match digit_in base c with
      | Some d => digits_in base (base * acc + d) (S count) rest
      | None => (acc, count, s)
      end
  | EmptyString => (acc, count, s)
  end.

(** What StringToNumber reads in a trimmed string, sign apart: no
    numeric literal, the literal [Infinity], or the magnitude
    [mantissa * 10 ^ exponent]. *)
Inductive literal :=
| NotNumeric
| InfinityLiteral
| Scaled (mantissa exponent : Z).

(** [0x], [0o] and [0b] literals: the base and the digits. *)
Definition prefixed (t : string) : option (Z * string) :=
  match t with
  | String "0" (String c rest) =>
      if Ascii.eqb c "x" || Ascii.eqb c "X" then Some (16, rest)
      else if Ascii.eqb c "o" || Ascii.eqb c "O" then Some (8, rest)
      else if Ascii.eqb c "b" || Ascii.eqb c "B" then Some (2, rest)
      else None
  | _ => None
  end.

(** An optional exponent part, up to the end of the string. *)
Definition exponent_part (s : string) : option Z :=
  match s with
  | EmptyString => Some 0
  | String c rest =>
      if Ascii.eqb c "e" || Ascii.eqb c "E" then
        let '(sg, body) := sign rest in
        match digits_in 10 0 0 body with
        | (n, S _, EmptyString) => Some (sg * n)
        | _ => None
        end
      else None
  end.

(** A decimal literal without sign: digits, an optional point and
    fraction, an optional exponent; at least one digit. *)
Definition unsigned_literal (u : string) : literal :=
  if String.eqb u "Infinity" then InfinityLiteral else
  let '(whole, n1, rest) := digits_in 10 0 0 u in
  let '(mantissa, n2, rest) :=
    match rest with
    | String "." fraction => digits_in 10 whole 0 fraction
    | _ => (whole, O, rest)
    end in
  match n1, n2 with
  | O, O => NotNumeric
  | _, _ =>
      match exponent_part rest with
      | Some e => Scaled mantissa (e - Z.of_nat n2)
      | None => NotNumeric
      end
  end.

(** The sign, and the literal, of a string; the empty string reads as
    zero, and a prefixed literal takes no sign. *)
Definition string_literal (s : string) : bool * literal :=
  let t := trim_end (trim_start s) in
  if String.eqb t "" then (false, Scaled 0 0) else
  match prefixed t with
  | Some (base, body) =>
      match digits_in base 0 0 body with
      | (n, S _, EmptyString) => (false, Scaled n 0)
      | _ => (false, NotNumeric)
      end
  | None =>
      let '(sg, u) := sign t in
      (sg <? 0, unsigned_literal u)
  end.

(** What ToNumber gives: a tracked Number, or a Number whose value is
    not tracked, either finite and not zero, or infinite. *)
Inductive reading :=
| Tracked (n : number)
| Finite
| Infinity.

(** The reading of a literal: the integer that it denotes when a double
    holds it exactly; an infinity from [overflow] on; zero up to half
    the least double. *)
Definition read_literal (negative : bool) (l : literal) : reading :=
  let whole (n : Z) :=
    if n <=? 2 ^ 53 then Tracked (Int (if negative then - n else n))
    else if overflow <=? n then Infinity
    else Finite in
  match l with
  | NotNumeric => Tracked NaN
  | InfinityLiteral => Infinity
  | Scaled m e =>
      if m =? 0 then Tracked (Int 0)
      else if 0 <=? e then whole (m * 10 ^ e)
      else
        let d := 10 ^ (- e) in
        if m mod d =? 0 then whole (m / d)
        else if overflow * d <=? m then Infinity
        else if m * 2 ^ 1075 <=? d then Tracked (Int 0)
        else Finite
  end.

(** ToNumber. *)
Definition to_reading (v : value) : reading :=
  let of_string (s : string) :=
    let '(negative, l) := string_literal s in
    read_literal negative l in
  match v with
  | Undefined => Tracked NaN
  | Null => Tracked (Int 0)
  | Bool true => Tracked (Int 1)
  | Bool false => Tracked (Int 0)
  | Num n => Tracked n
  | Str s => of_string s
  | Arr _ => of_string (to_string v)
  end.

(** ToNumber, when its value is tracked. *)
Definition to_number (v : value) : option number :=
  match to_reading v with
  | Tracked n => Some n
  | _ => None
  end.

(** [a * v] for a Number [a]: the product of doubles, given when it is
    NaN (as zero times an infinity is) or an integer that a double
    holds; [None] stands for a product that is not NaN and whose value
    is not tracked. *)
Definition times (a : number) (v : value) : option number :=
  match a, to_reading v with
  | NaN, _ => Some NaN
  | Int _, Tracked NaN => Some NaN
  | Int x, Tracked (Int y) =>
      if infinite x || infinite y then
        if (x =? 0) || (y =? 0) then Some NaN else None
      else if safe (x * y) then Some (Int (x * y)) else None
  | Int x, Finite => if x =? 0 then Some (Int 0) else None
  | Int x, Infinity => if x =? 0 then Some NaN else None
  end.

(** [a > b] on Numbers, one of them within 2^53: false as soon as one
    side is NaN. *)
Definition gt (a b : number) : bool :=
  match a, b with
  | Int x, Int y => y <? x
  | _, _ => false
  end.

(** [s.toUpperCase()], on the letters a to z. *)
Definition upper_char (c : ascii) : ascii :=
  let n := N_of_ascii c in
  if ((97 <=? n) && (n <=? 122))%N then ascii_of_N (n - 32) else c.

Fixpoint toUpperCase (s : string) : string :=
  match s with
  | String c rest => String (upper_char c) (toUpperCase rest)
  | EmptyString => EmptyString
  end.

(** [s.split('.')] *)
Fixpoint split_go (cur : string) (s : string) : list string :=
  match s with
  | String c rest =>
      if Ascii.eqb c "." then String.rev cur :: split_go "" rest
      else split_go (String c cur) rest
  | EmptyString => [String.rev cur]
  end.

Definition split_dot (s : string) : list string := split_go "" s.

(** Structural equality of values, used to compare a column with a
    bound parameter. *)
Fixpoint eqb (a b : value) : bool :=
  match a, b with
  | Undefined, Undefined => true
  | Null, Null => true
  | Bool x, Bool y => Bool.eqb x y
  | Num (Int x), Num (Int y) => x =? y
  | Num NaN, Num NaN => true
  | Str x, Str y => String.eqb x y
  | Arr xs, Arr ys =>
      (fix all2 (l : list value) (r : list value) : bool :=
         match l, r with
         | [], [] => true
         | x :: l', y :: r' => eqb x y && all2 l' r'
         | _, _ => false
         end) xs ys
  | _, _ => false
  end.

End JS.

(** ** Exceptions *)

(** What the query builder refuses: a limit or an offset that is not a
    number, and an order other than ASC and DESC. *)
Inductive Refusal :=
| TakeNotANumber
| SkipNotANumber
| OrderNotAscDesc.

(** What a handler raises, the errors of the host language and of the
    query builder included. *)
Inductive Exception :=
| UnauthorizedException
| ConflictException (message : string)
| UnprocessableEntityException (message : string)
| TypeError
| TypeORMError (refusal : Refusal).

Inductive Completion (A : Type) :=
| Return (a : A)
| Throw (e : Exception).
Arguments Return {A} a.
Arguments Throw {A} e.

(** ** The query builder

    The part of the store's [SelectQueryBuilder] that the controller
    drives: the calls are recorded as the builder state they leave
    behind, a call that the builder refuses throws, and [matches] gives
    the rows that state selects. *)
Module TypeORM.
Import JS.

(** How a condition is attached to the ones before it. *)
Inductive WhereType :=
| Simple
| AndWhere
| OrWhere.

(** A condition, with the parameter object handed over with it.
    [Equals f p] is the text [entity.f = :f], [IsIn f p] is
    [entity.f IN(:...f)], and [Brackets ws p] is the group that a
    [new Brackets(...)] callback has built, [p] being the parameters
    collected inside it. *)
Inductive Condition :=
| Equals (column : string) (params : Obj)
| IsIn (column : string) (params : Obj)
| Brackets (inner : list (WhereType * Condition)) (params : Obj).

Definition params_of (c : Condition) : Obj :=
  match c with
  | Equals _ p | IsIn _ p | Brackets _ p => p
  end.

(** A group in which nothing was added renders as the empty string. *)
Definition blank (c : Condition) : bool :=
  match c with
  | Brackets [] _ => true
  | _ => false
  end.

(** The amount handed to [skip]: a value, or a Number that is not NaN
    and that [JS.times] does not track. *)
Inductive Amount :=
| Exactly (v : value)
| Untracked.

Record SelectQueryBuilder := {
  alias : string;
  joins : list (string * string);
  wheres : list (WhereType * Condition);
  parameters : Obj;
  orderBys : list (string * string);
  take : option value;
  skip : option Amount;
}.

(** [repository.createQueryBuilder(alias)] *)
Definition createQueryBuilder (a : string) : SelectQueryBuilder :=
  {| alias := a; joins := []; wheres := []; parameters := ∅;
     orderBys := []; take := None; skip := None |}.

(** [setParameters]: a later binding of a name replaces an earlier one. *)
Definition setParameters (p : Obj) (b : SelectQueryBuilder) : SelectQueryBuilder :=
  {| alias := alias b; joins := joins b; wheres := wheres b;
     parameters := p ∪ parameters b;
     orderBys := orderBys b; take := take b; skip := skip b |}.

Definition set_wheres (ws : list (WhereType * Condition))
    (b : SelectQueryBuilder) : SelectQueryBuilder :=
  {| alias := alias b; joins := joins b; wheres := ws;
     parameters := parameters b;
     orderBys := orderBys b; take := take b; skip := skip b |}.

(** [where]: replaces the conditions so far; a blank group adds none. *)
Definition where_ (c : Condition) (b : SelectQueryBuilder) : SelectQueryBuilder :=
  setParameters (params_of c)
    (set_wheres (if blank c then [] else [(Simple, c)]) b).

Definition andWhere (c : Condition) (b : SelectQueryBuilder) : SelectQueryBuilder :=
  setParameters (params_of c) (set_wheres (wheres b ++ [(AndWhere, c)])%list b).

Definition orWhere (c : Condition) (b : SelectQueryBuilder) : SelectQueryBuilder :=
  setParameters (params_of c) (set_wheres (wheres b ++ [(OrWhere, c)])%list b).

(** [new Brackets(sqb => ...)], once the callback has filled [sqb]. *)
Definition brackets (sqb : SelectQueryBuilder) : Condition :=
  Brackets (wheres sqb) (parameters sqb).

(** [leftJoin(property, alias)], recorded as the call that it is.
    Whether the store knows [property] as a relation is decided by the
    metadata of the entity, which the controller does not carry: a run
    of the program that joins may stop here where the embedding goes
    on, so nothing below states that a run which joins returns. *)
Definition leftJoin (property joinAlias : string)
    (b : SelectQueryBuilder) : SelectQueryBuilder :=
  {| alias := alias b; joins := (joins b ++ [(property, joinAlias)])%list;
     wheres := wheres b; parameters := parameters b;
     orderBys := orderBys b; take := take b; skip := skip b |}.

(** The orders that [addOrderBy] accepts. *)
Definition validOrder (order : string) : bool :=
  String.eqb order "ASC" || String.eqb order "DESC".

(** [addOrderBy(sort, order)]: any other order is refused. *)
Definition addOrderBy (sort order : string)
    (b : SelectQueryBuilder) : Completion SelectQueryBuilder :=
  if validOrder order then
    Return
      {| alias := alias b; joins := joins b; wheres := wheres b;
         parameters := parameters b;
         orderBys := (orderBys b ++ [(sort, order)])%list;
         take := take b; skip := skip b |}
  else Throw (TypeORMError OrderNotAscDesc).

(** The test that [take] and [skip] make on their argument: a value
    that is not a Number is converted first, and NaN is refused. *)
Definition notANumber (v : value) : bool :=
  match v with
  | Undefined | Null => false
  | Num NaN => true
  | Num (Int _) => false
  | _ =>
      match to_reading v with
      | Tracked NaN => true
      | _ => false
      end
  end.

(** [take(v)] *)
Definition setTake (v : value) (b : SelectQueryBuilder)
    : Completion SelectQueryBuilder :=
  if notANumber v then Throw (TypeORMError TakeNotANumber)
  else
    Return
      {| alias := alias b; joins := joins b; wheres := wheres b;
         parameters := parameters b; orderBys := orderBys b;
         take := Some v; skip := skip b |}.

Definition refused (a : Amount) : bool :=
  match a with
  | Exactly v => notANumber v
  | Untracked => false
  end.

(** [skip(a)] *)
Definition setSkip (a : Amount) (b : SelectQueryBuilder)
    : Completion SelectQueryBuilder :=
  if refused a then Throw (TypeORMError SkipNotANumber)
  else
    Return
      {| alias := alias b; joins := joins b; wheres := wheres b;
         parameters := parameters b; orderBys := orderBys b;
         take := take b; skip := Some a |}.

(** The keys that name a column and nothing else: letters, digits and
    the underscore.  The controller writes a key into the text of its
    condition as it comes; for such a key the text is the comparison of
    that column with the parameter of that name, which is the meaning
    that [holds] gives to [Equals] and [IsIn]. *)
Definition plain_char (c : ascii) : bool :=
  let n := N_of_ascii c in
  ((48 <=? n) && (n <=? 57) || (65 <=? n) && (n <=? 90)
   || (97 <=? n) && (n <=? 122) || (n =? 95))%N.

Definition plain (k : string) : bool :=
  negb (String.eqb k "") && forallb plain_char (list_ascii_of_string k).

(** The text of a condition, as the controller writes it. *)
Fixpoint sql (c : Condition) : string :=
  match c with
  | Equals f _ => "entity." +:+ f +:+ " = :" +:+ f
  | IsIn f _ => "entity." +:+ f +:+ " IN(:..." +:+ f +:+ ")"
  | Brackets ws _ =>
      match ws with
      | [] => ""
      | (_, c0) :: rest =>
          "(" +:+ sql c0 +:+
          (fix more (l : list (WhereType * Condition)) : string :=
             match l with
             | [] => ""
             | (OrWhere, c') :: l' => " OR " +:+ sql c' +:+ more l'
             | (_, c') :: l' => " AND " +:+ sql c' +:+ more l'
             end) rest +:+ ")"
      end
  end.

(** A row of the result: the value of each column path. *)
Abbreviation Row := (gmap string value).

Definition sql_equals (column param : option value) : bool :=
  match column, param with
  | Some a, Some b => eqb a b
  | _, _ => false
  end.

Definition sql_in (column param : option value) : bool :=
  match column, param with
  | Some a, Some (Arr items) => existsb (eqb a) items
  | _, _ => false
  end.

(** Whether a row satisfies a condition under the bound parameters
    [P], for conditions on [plain] columns and on the owner fields of
    the resource.  Inside a group the first connective is dropped and
    AND binds tighter than OR, as in the generated SQL. *)
Fixpoint holds (P : Obj) (row : Row) (c : Condition) : bool :=
  match c with
  | Equals f _ => sql_equals (row !! f) (P !! f)
  | IsIn f _ => sql_in (row !! f) (P !! f)
  | Brackets ws _ =>
      match ws with
      | [] => true
      | (_, c0) :: rest =>
          (fix disj (acc : bool) (l : list (WhereType * Condition)) : bool :=
             match l with
             | [] => acc
             | (OrWhere, c') :: l' => acc || disj (holds P row c') l'
             | (_, c') :: l' => disj (acc && holds P row c') l'
             end) (holds P row c0) rest
      end
  end.

(** The rows a builder selects: its conditions, under the parameters it
    has collected. *)
Definition matches (b : SelectQueryBuilder) (row : Row) : bool :=
  holds (parameters b) row (brackets b).

End TypeORM.

(** ** Collaborators of the controller *)

(** The permission keys, and [ContentPermissionsKeys[key]], the name of a
    key. *)
Module ContentPermissionsKeys.

Inductive t :=
| ContentViewAll
| ContentViewOwn
| ContentViewUnpublished
| ContentAdd
| ContentEdit
| ContentEditOwn
| ContentRemove
| ContentRemoveOwn.

Definition name (k : t) : string :=
  match k with
  | ContentViewAll => "ContentViewAll"
  | ContentViewOwn => "ContentViewOwn"
  | ContentViewUnpublished => "ContentViewUnpublished"
  | ContentAdd => "ContentAdd"
  | ContentEdit => "ContentEdit"
  | ContentEditOwn => "ContentEditOwn"
  | ContentRemove => "ContentRemove"
  | ContentRemoveOwn => "ContentRemoveOwn"
  end.

End ContentPermissionsKeys.

(** The acting user: a numeric identifier, role identifiers, and whether
    the principal is a registered one. *)
Module UserEntity.
Record t := {
  id : Z;
  roles : list Z;
  isAuthorized : bool;
}.
End UserEntity.

(** The role and permission store.  Its answers are taken as they come:
    a lookup that fails is not part of the embedding. *)
Module RolesAndPermissionsService.
Record t := {
  Permission : Type;
  getPermissionByKey : string -> Permission;
  checkPermissionByRoles : Permission -> list Z -> bool;
}.
End RolesAndPermissionsService.

Module ContentPermissionHelper.
Record t := {
  getKeyByContentName : string -> string -> string;
}.
End ContentPermissionHelper.

(** What the constructor of the concrete controller carries as
    [entityFn]: the entity's name and its owner fields. *)
Module EntityFn.
Record t := {
  name : string;
  ownerFields : list string;
}.
End EntityFn.

(** The repository: [save] hands back the stored entity, or throws the
    store's error object. *)
Module Repository.
Inductive SaveResult :=
| Saved (entity : JS.Obj)
| Rejected (e : JS.Obj).

Record t := {
  save : JS.Obj -> SaveResult;
}.
End Repository.

(** What the handlers write to the console. *)
Inductive ConsoleEntry :=
| ConsoleLog (date : Z) (e : JS.Obj)
| ConsoleWarn (message : string)
| ConsoleError (e : JS.Obj).

(** ** The controller *)
Module CrudController.
Import JS TypeORM.

Record t := {
  rolesAndPermissions : RolesAndPermissionsService.t;
  contentPermissionsHelper : ContentPermissionHelper.t;
  repository : Repository.t;
  entityFn : EntityFn.t;
}.

Definition checkPermissionGranted (this : t)
    (key : ContentPermissionsKeys.t) (entityName : string)
    (user : UserEntity.t) : bool :=
  let svc := rolesAndPermissions this in
  let permission :=
    RolesAndPermissionsService.getPermissionByKey svc
      (ContentPermissionHelper.getKeyByContentName
         (contentPermissionsHelper this)
         (ContentPermissionsKeys.name key) entityName) in
  RolesAndPermissionsService.checkPermissionByRoles svc permission
    (UserEntity.roles user).

(** [permissions.viewAll] and its two siblings: a key checked for the
    entity of this controller. *)
Definition granted (this : t) (key : ContentPermissionsKeys.t)
    (user : UserEntity.t) : bool :=
  checkPermissionGranted this key (EntityFn.name (entityFn this)) user.

(** [ownerFields.forEach(field => { where[field] = user.id })] *)
Definition bindOwnerFields (ownerFields : list string) (uid : Z)
    (where' : Obj) : Obj :=
  fold_left (fun w field => <[field := Num (Int uid)]> w) ownerFields where'.

(** The compiled restriction; [None] is the [false] of the source. *)
Definition getWhereRestrictionsByPermissions (this : t)
    (user : UserEntity.t) : option Obj :=
  let entityName := EntityFn.name (entityFn this) in
  let ownerFields := EntityFn.ownerFields (entityFn this) in
  let viewAll :=
    checkPermissionGranted this ContentPermissionsKeys.ContentViewAll
      entityName user in
  let viewUnpublished :=
    checkPermissionGranted this ContentPermissionsKeys.ContentViewUnpublished
      entityName user in
  let viewOwn :=
    checkPermissionGranted this ContentPermissionsKeys.ContentViewOwn
      entityName user in
  if viewAll || viewOwn then
    let where' : Obj := ∅ in
    Some
      (if viewAll then
         if negb viewUnpublished then
           let where' := <["isPublished" := Bool true]> where' in
           if viewOwn
           then bindOwnerFields ownerFields (UserEntity.id user) where'
           else where'
         else where'
       else bindOwnerFields ownerFields (UserEntity.id user) where')
  else None.

(** [extraWhere[field]], where [extraWhere] may be [false]. *)
Definition read (extraWhere : option Obj) (field : string) : value :=
  match extraWhere with
  | Some w => get w field
  | None => Undefined
  end.

Definition hasOwnerFields (ownerFields : list string)
    (extraWhere : option Obj) : bool :=
  fold_left
    (fun res field => res && defined (read extraWhere field))
    ownerFields true.

(** The joins of one owner field: every segment of the path but the
    last, each under its accumulated path. *)
Definition joinPath (field : string)
    (builder : SelectQueryBuilder) : SelectQueryBuilder :=
  let parts := removelast (split_dot field) in
  snd (fold_left
         (fun '(res, b) part =>
            let res := res +:+ "." +:+ part in
            (res, leftJoin res res b))
         parts ("entity", builder)).

(** The body of [ownerFields.forEach((field, i) => ...)]: it joins on the
    outer builder and adds the field's term to the inner group. *)
Fixpoint ownerTerms (i : nat) (fields : list string) (extraWhere : Obj)
    (st : SelectQueryBuilder * SelectQueryBuilder)
    : SelectQueryBuilder * SelectQueryBuilder :=
  match fields with
  | [] => st
  | field :: rest =>
      let '(builder, sqb2) := st in
      let builder := joinPath field builder in
      let sqb2 :=
        match i with
        | S _ => orWhere (Equals field extraWhere) sqb2
        | O => where_ (Equals field extraWhere) sqb2
        end in
      ownerTerms (S i) rest extraWhere (builder, sqb2)
  end.

(** [builder.where(new Brackets(sqb1 => ...))] for a truthy
    [extraWhere]. *)
Definition restrict (ownerFields : list string) (extraWhere : Obj)
    (builder : SelectQueryBuilder) : SelectQueryBuilder :=
  let fresh := createQueryBuilder (alias builder) in
  let '(builder, sqb1) :=
    if hasOwnerFields ownerFields (Some extraWhere) then
      let '(builder, sqb2) :=
        ownerTerms 0 ownerFields extraWhere (builder, fresh) in
      let sqb1 := where_ (brackets sqb2) fresh in
      (builder,
       if truthy (get extraWhere "isPublished")
       then orWhere (Equals "isPublished" extraWhere) sqb1
       else sqb1)
    else
      (builder,
       if truthy (get extraWhere "isPublished")
       then where_ (Equals "isPublished" extraWhere) fresh
       else fresh) in
  where_ (brackets sqb1) builder.

(** The state a run leaves behind: the caller's query object, which is
    updated in place, and the console. *)
Record Run (A : Type) := {
  completion : Completion A;
  query_after : Obj;
  console_after : list ConsoleEntry;
}.
Arguments completion {A} r.
Arguments query_after {A} r.
Arguments console_after {A} r.

Definition maxLimit : Z := 100.

Definition limitWarning : string :=
  "Limit was overriden due to more than max limit (" +:+
  to_string (Num (Int maxLimit)) +:+ ")".

(** Lines 244 to 257: the limit and the page, written back into the
    query. *)
Definition paginate (query : Obj) (console : list ConsoleEntry)
    : Obj * list ConsoleEntry :=
  if truthy (get query "limit") then
    let queryLimit := parseInt (get query "limit") in
    let '(query, console) :=
      if gt queryLimit (Int maxLimit)
      then (<["limit" := Num (Int maxLimit)]> query,
            (console ++ [ConsoleWarn limitWarning])%list)
      else (<["limit" := Num queryLimit]> query, console) in
    (<["page" := or_else (get query "page") (Num (Int 0))]> query, console)
  else
    (<["page" := Num (Int 0)]> (<["limit" := Num (Int 25)]> query), console).

(** [query.offset || query.limit * query.page], [query.limit] being
    the Number that lines 244 to 257 have written. *)
Definition offsetOf (query : Obj) : Amount :=
  if truthy (get query "offset") then Exactly (get query "offset")
  else
    match get query "limit" with
    | Num limit =>
        match times limit (get query "page") with
        | Some n => Exactly (Num n)
        | None => Untracked
        end
    | _ => Untracked
    end.

Definition reservedKeys : list string :=
  ["limit"; "page"; "orderBy"; "order"; "offset"].

(** The five [delete query.k]. *)
Definition stripReserved (query : Obj) : Obj :=
  fold_left (fun q k => delete k q) reservedKeys query.

(** [Object.keys(query)].  The keys come in the order of the map; the
    conditions made from them are AND-ed, and no statement below
    depends on their order. *)
Definition keys (query : Obj) : list string :=
  (map_to_list query).*1.

(** The body of [queryKeys.forEach(key => ...)]. *)
Definition filterBy (query : Obj) (builder : SelectQueryBuilder)
    (key : string) : SelectQueryBuilder :=
  if isArray (get query key)
  then andWhere (IsIn key query) builder
  else andWhere (Equals key query) builder.

(** The condition that this body attaches for [key]. *)
Definition filterOf (query : Obj) (key : string) : Condition :=
  if isArray (get query key) then IsIn key query else Equals key query.

(** The guard of line 201. *)
Definition denied (extraWhere : option Obj) (skipPermission : bool) : bool :=
  match extraWhere with None => true | Some _ => false end
  && negb skipPermission.

(** Lines 204 to 240: the fresh builder, restricted when [extraWhere]
    is truthy. *)
Definition restricted (this : t) (extraWhere : option Obj)
    : SelectQueryBuilder :=
  let builder := createQueryBuilder "entity" in
  let ownerFields := EntityFn.ownerFields (entityFn this) in
  match extraWhere with
  | Some w => restrict ownerFields w builder
  | None => builder
  end.

(** A run stops at the first call that throws: at line 202, at line 242
    on an order that is no string or that the builder refuses, and at
    lines 258 and 259 when the builder refuses the limit or the offset,
    the limit and the page being written to the query by then and the
    reserved keys not yet deleted. *)
Definition getQueryBuilder (this : t) (user : UserEntity.t) (query : Obj)
    (skipPermission : bool) (console : list ConsoleEntry)
    : Run SelectQueryBuilder :=
  let extraWhere := getWhereRestrictionsByPermissions this user in
  if denied extraWhere skipPermission then
    {| completion := Throw UnauthorizedException;
       query_after := query; console_after := console |}
  else
    let builder := restricted this extraWhere in
    let sorted : Completion SelectQueryBuilder :=
      if truthy (get query "orderBy") && truthy (get query "order") then
        match get query "order" with
        | Str order =>
            addOrderBy ("entity." +:+ to_string (get query "orderBy"))
              (toUpperCase order) builder
        | _ => Throw TypeError
        end
      else Return builder in
    match sorted with
    | Throw e =>
        {| completion := Throw e;
           query_after := query; console_after := console |}
    | Return builder =>
        let '(query, console) := paginate query console in
        match setTake (get query "limit") builder with
        | Throw e =>
            {| completion := Throw e;
               query_after := query; console_after := console |}
        | Return builder =>
            match setSkip (offsetOf query) builder with
            | Throw e =>
                {| completion := Throw e;
                   query_after := query; console_after := console |}
            | Return builder =>
                let query := stripReserved query in
                let queryKeys := keys query in
                let builder := fold_left (filterBy query) queryKeys builder in
                {| completion := Return builder;
                   query_after := query; console_after := console |}
            end
        end
    end.


Definition duplicateMessage : string :=
  "Duplicate entity. Please, check unique fields".

Definition genericMessage : string :=
  "Something went wrong. Please try later or contact us".

(** Lines 66 to 72: the author and the moderator of a new entity. *)
Definition stamp (user : UserEntity.t) (entity : Obj) : Obj :=
  if UserEntity.isAuthorized user then
    <["moderatorId" := Num (Int (UserEntity.id user))]>
      (<["authorId" := Num (Int (UserEntity.id user))]> entity)
  else
    <["moderatorId" := Null]> (<["authorId" := Null]> entity).

(** The outcome of a handler, and the console after it. *)
Definition createContentEntity (this : t) (entity : Obj)
    (user : UserEntity.t) (now : Z) (console : list ConsoleEntry)
    : Completion Obj * list ConsoleEntry :=
  let entity := stamp user entity in
  match Repository.save (repository this) entity with
  | Repository.Saved stored => (Return stored, console)
  | Repository.Rejected e =>
      if strict_eq_string (get e "code") "ER_DUP_ENTRY"
      then (Throw (ConflictException duplicateMessage), console)
      else (Throw (UnprocessableEntityException genericMessage),
            (console ++ [ConsoleLog now e])%list)
  end.

(** Lines 104 to 107: the three forced fields of [newEntity], then
    [Object.assign(currentEntity, newEntity)]. *)
Definition mergeUpdate (user : UserEntity.t) (currentEntity newEntity : Obj)
    : Obj :=
  let newEntity := <["id" := get currentEntity "id"]> newEntity in
  let newEntity := <["authorId" := get currentEntity "authorId"]> newEntity in
  let newEntity :=
    <["moderatorId" := Num (Int (UserEntity.id user))]> newEntity in
  newEntity ∪ currentEntity.

(** The handler returns the stored entity, or nothing ([None], the
    [undefined] of a function that falls off its end). *)
Definition updateContentEntity (this : t) (user : UserEntity.t)
    (currentEntity newEntity : Obj) (console : list ConsoleEntry)
    : Completion (option Obj) * list ConsoleEntry :=
  let currentEntity := mergeUpdate user currentEntity newEntity in
  match Repository.save (repository this) currentEntity with
  | Repository.Saved test => (Return (Some test), console)
  | Repository.Rejected e => (Return None, (console ++ [ConsoleError e])%list)
  end.

(** ** Derived descriptions of what the query assembly leaves behind *)

(** The queries whose sort, if any, line 242 hands over as an order
    that the builder accepts. *)
Definition sortAccepted (query : Obj) : bool :=
  negb (truthy (get query "orderBy") && truthy (get query "order"))
  || match get query "order" with
     | Str order => validOrder (toUpperCase order)
     | _ => false
     end.

(** The queries whose limit and offset, as lines 244 to 259 compute
    them, the builder accepts. *)
Definition pageAccepted (query : Obj) : bool :=
  let query := (paginate query []).1 in
  negb (notANumber (get query "limit")) && negb (refused (offsetOf query)).

(** The queries on which no call of lines 241 to 259 throws. *)
Definition accepted (query : Obj) : bool :=
  sortAccepted query && pageAccepted query.

(** The sort that line 242 adds for a sortable query. *)
Definition ordering (query : Obj) : list (string * string) :=
  if truthy (get query "orderBy") && truthy (get query "order") then
    match get query "order" with
    | Str order =>
        [("entity." +:+ to_string (get query "orderBy"), toUpperCase order)]
    | _ => []
    end
  else [].

(** What the caller's filters ask of a row: under every key of the
    query that is not reserved, the column of that name holds the value,
    or one of the values when an array is given. *)
Definition passes (query : Obj) (row : Row) : Prop :=
  forall k v, query !! k = Some v -> k ∉ reservedKeys ->
    (if isArray v then sql_in (row !! k) (Some v)
     else sql_equals (row !! k) (Some v)) = true.

(** One equality term per owner field, the first attached with [where]
    and the others with [orWhere]. *)
Definition ownerGroup (fs : list string) (w : Obj)
    : list (WhereType * Condition) :=
  match fs with
  | [] => []
  | f :: rest =>
      (Simple, Equals f w) :: map (fun g => (OrWhere, Equals g w)) rest
  end.

(** The conditions of the outer group, as lines 213 to 238 attach
    them. *)
Definition accessGroup (fs : list string) (w : Obj)
    : list (WhereType * Condition) :=
  if hasOwnerFields fs (Some w) then
    (match fs with
     | [] => []
     | _ :: _ => [(Simple, Brackets (ownerGroup fs w) w)]
     end ++
     if truthy (get w "isPublished")
     then [(OrWhere, Equals "isPublished" w)] else [])%list
  else
    if truthy (get w "isPublished")
    then [(Simple, Equals "isPublished" w)] else [].

End CrudController.

(** ** The branch table of the specification *)
Module Spec.
Import JS TypeORM CrudController.

(** When an owner restriction is in force, the owner-field terms, OR'd
    together, form a group onto which the publication clause is OR'd if
    it is in force too; otherwise the bare publication clause stands
    alone if it is in force, and there is no condition if it is not. *)
Definition accessPredicate (viewAll viewUnpublished viewOwn : bool)
    (ownerFields : list string) (w : Obj) : list (WhereType * Condition) :=
  let hasOwnerRestriction :=
    viewAll && negb viewUnpublished && viewOwn || negb viewAll && viewOwn in
  let publication := viewAll && negb viewUnpublished in
  if hasOwnerRestriction then
    ((Simple, Brackets (ownerGroup ownerFields w) w) ::
     if publication then [(OrWhere, Equals "isPublished" w)] else [])
  else
    if publication then [(Simple, Equals "isPublished" w)] else [].

End Spec.

(** ** A concrete controller

    An article resource owned through [authorId] and [moderatorId], a
    permission store in which role 1 grants view-all, role 2 view-own and
    role 3 view-unpublished, and a few users, rows and queries. *)
Module Fixture.
Import JS.

Definition store : RolesAndPermissionsService.t :=
  {| RolesAndPermissionsService.Permission := string;
     RolesAndPermissionsService.getPermissionByKey := fun key => key;
     RolesAndPermissionsService.checkPermissionByRoles :=
       fun permission roles =>
         existsb
           (fun role =>
              match role with
              | 1 => String.eqb permission "ContentViewAll:Article"
              | 2 => String.eqb permission "ContentViewOwn:Article"
              | 3 => String.eqb permission "ContentViewUnpublished:Article"
              | _ => false
              end) roles |}.

Definition helper : ContentPermissionHelper.t :=
  {| ContentPermissionHelper.getKeyByContentName :=
       fun key contentName => key +:+ ":" +:+ contentName |}.

Definition accepting : Repository.t :=
  {| Repository.save := fun entity => Repository.Saved entity |}.

Definition rejecting (e : Obj) : Repository.t :=
  {| Repository.save := fun _ => Repository.Rejected e |}.

Definition duplicateKey : Obj := {[ "code" := Str "ER_DUP_ENTRY" ]}.

Definition lockTimeout : Obj := {[ "code" := Str "ER_LOCK_WAIT_TIMEOUT" ]}.

Definition articles (repo : Repository.t) : CrudController.t :=
  {| CrudController.rolesAndPermissions := store;
     CrudController.contentPermissionsHelper := helper;
     CrudController.repository := repo;
     CrudController.entityFn :=
       {| EntityFn.name := "Article";
          EntityFn.ownerFields := ["authorId"; "moderatorId"] |} |}.

Definition userWith (uid : Z) (roles : list Z) : UserEntity.t :=
  {| UserEntity.id := uid; UserEntity.roles := roles;
     UserEntity.isAuthorized := true |}.

Definition stranger : UserEntity.t := userWith 7 [].
Definition reader : UserEntity.t := userWith 7 [1].
Definition writer : UserEntity.t := userWith 7 [2].
Definition contributor : UserEntity.t := userWith 7 [1; 2].

(** Written by user 7, moderated by user 8, not published. *)
Definition draftOf7 : TypeORM.Row :=
  <["isPublished" := Bool false]>
    (<["authorId" := Num (Int 7)]> {[ "moderatorId" := Num (Int 8) ]}).

(** Written and moderated by user 8, not published. *)
Definition draftOf8 : TypeORM.Row :=
  <["isPublished" := Bool false]>
    (<["authorId" := Num (Int 8)]> {[ "moderatorId" := Num (Int 8) ]}).

(** Written and moderated by user 8, published. *)
Definition postOf8 : TypeORM.Row :=
  <["isPublished" := Bool true]>
    (<["authorId" := Num (Int 8)]> {[ "moderatorId" := Num (Int 8) ]}).

(** [?limit=10&page=2] *)
Definition thirdPage : Obj :=
  <["limit" := Str "10"]> {[ "page" := Str "2" ]}.

(** [?limit=150&title=x&tag=a&tag=b&orderBy=id&order=desc] *)
Definition search : Obj :=
  <["limit" := Str "150"]>
    (<["title" := Str "x"]>
       (<["tag" := Arr [Str "a"; Str "b"]]>
          (<["orderBy" := Str "id"]> {[ "order" := Str "desc" ]}))).

(** The current entity [{id: 5, authorId: 3}] and the submitted
    [{title: "x"}]. *)
Definition current : Obj :=
  <["id" := Num (Int 5)]> {[ "authorId" := Num (Int 3) ]}.

Definition submitted : Obj := {[ "title" := Str "x" ]}.

End Fixture.

(** ** The list and count handlers

    What the store answers when a builder is executed. *)
Module Executor.
Record t := {
  getMany : TypeORM.SelectQueryBuilder -> list TypeORM.Row;
  getCount : TypeORM.SelectQueryBuilder -> Z;
}.
End Executor.

Module Handlers.
Import JS TypeORM CrudController.

(** Lines 37 to 40. *)
Definition loadContentEntities (this : CrudController.t) (store : Executor.t)
    (user : UserEntity.t) (query : Obj) (console : list ConsoleEntry)
    : Run (list Row) :=
  let run := getQueryBuilder this user query false console in
  {| completion :=
       match completion run with
       | Return builder => Return (Executor.getMany store builder)
       | Throw e => Throw e
       end;
     query_after := query_after run;
     console_after := console_after run |}.

(** Lines 43 to 47: the count, returned as [{ total }]. *)
Definition countContentEntities (this : CrudController.t) (store : Executor.t)
    (user : UserEntity.t) (query : Obj) (console : list ConsoleEntry)
    : Run Obj :=
  let run := getQueryBuilder this user query false console in
  {| completion :=
       match completion run with
       | Return builder =>
           let total := Executor.getCount store builder in
           Return {[ "total" := Num (Int total) ]}
       | Throw e => Throw e
       end;
     query_after := query_after run;
     console_after := console_after run |}.

End Handlers.

Module Cases.
Import JS.

(** A resource without owner field. *)
Definition pages (repo : Repository.t) : CrudController.t :=
  {| CrudController.rolesAndPermissions := Fixture.store;
     CrudController.contentPermissionsHelper := Fixture.helper;
     CrudController.repository := repo;
     CrudController.entityFn :=
       {| EntityFn.name := "Article"; EntityFn.ownerFields := [] |} |}.

Definition editor : UserEntity.t := Fixture.userWith 7 [1; 3].

Definition anonymous : UserEntity.t :=
  {| UserEntity.id := 0; UserEntity.roles := [];
     UserEntity.isAuthorized := false |}.

(** A store that answers with two rows and the count 2. *)
Definition twoRows : Executor.t :=
  {| Executor.getMany := fun _ => [Fixture.draftOf7; Fixture.postOf8];
     Executor.getCount := fun _ => 2 |}.

(** [?orderBy=id&order=asc&order=desc] *)
Definition twoOrders : Obj :=
  <["orderBy" := Str "id"]>
    {[ "order" := Arr [Str "asc"; Str "desc"] ]}.

(** [?limit=150&orderBy=id&order=sideways] *)
Definition sideways : Obj :=
  <["limit" := Str "150"]>
    (<["orderBy" := Str "id"]> {[ "order" := Str "sideways" ]}).

(** A filter on the author column, naming user 8. *)
Definition authorEight : Obj := {[ "authorId" := Num (Int 8) ]}.

(** [?limit=many&title=x] *)
Definition manyRows : Obj :=
  <["limit" := Str "many"]> {[ "title" := Str "x" ]}.

(** A submitted entity that names its own author, moderator and id. *)
Definition forged : Obj :=
  <["id" := Num (Int 1)]>
    (<["authorId" := Num (Int 1)]>
       (<["moderatorId" := Num (Int 1)]> {[ "title" := Str "x" ]})).

End Cases.

(** ** Evaluating the embedding *)

Example parseInt_150 : JS.parseInt (JS.Str "150") = JS.Int 150.
Proof. reflexivity. Qed.

Example parseInt_prefix : JS.parseInt (JS.Str "  -12px") = JS.Int (-12).
Proof. reflexivity. Qed.

Example parseInt_text : JS.parseInt (JS.Str "abc") = JS.NaN.
Proof. reflexivity. Qed.

Example parseInt_array :
  JS.parseInt (JS.Arr [JS.Str "5"; JS.Str "6"]) = JS.Int 5.
Proof. reflexivity. Qed.

Example times_10_2 : JS.times (JS.Int 10) (JS.Str "2") = Some (JS.Int 20).
Proof. reflexivity. Qed.

Example times_beyond_exact :
  JS.times (JS.Int 1) (JS.Str "9007199254740993") = None.
Proof. vm_compute. reflexivity. Qed.

Example to_number_exponent : JS.to_number (JS.Str " 1e2 ") = Some (JS.Int 100).
Proof. vm_compute. reflexivity. Qed.

Example to_number_text : JS.to_number (JS.Str "12px") = Some JS.NaN.
Proof. vm_compute. reflexivity. Qed.

Example to_number_fraction : JS.to_number (JS.Str "0.5") = None.
Proof. vm_compute. reflexivity. Qed.

Example split_path :
  JS.split_dot "author.profile.id" = ["author"; "profile"; "id"].
Proof. reflexivity. Qed.

Example upper_asc : JS.toUpperCase "asc" = "ASC".
Proof. reflexivity. Qed.

Example contributor_sql :
  let this := Fixture.articles Fixture.accepting in
  option_map
    (fun w => TypeORM.sql (TypeORM.brackets (CrudController.restricted this (Some w))))
    (CrudController.getWhereRestrictionsByPermissions this Fixture.contributor)
  = Some
      ("(((entity.authorId = :authorId OR entity.moderatorId = :moderatorId)"
       +:+ " OR entity.isPublished = :isPublished))").
Proof. vm_compute. reflexivity. Qed.

Example update_of_the_specification :
  CrudController.mergeUpdate (Fixture.userWith 9 []) Fixture.current
    Fixture.submitted
  = <["id" := JS.Num (JS.Int 5)]>
      (<["authorId" := JS.Num (JS.Int 3)]>
         (<["moderatorId" := JS.Num (JS.Int 9)]>
            {[ "title" := JS.Str "x" ]})).
Proof. vm_compute. reflexivity. Qed.

Example anonymous_create :
  CrudController.stamp
    {| UserEntity.id := 0; UserEntity.roles := []; UserEntity.isAuthorized := false |}
    Fixture.submitted
  = <["authorId" := JS.Null]>
      (<["moderatorId" := JS.Null]> {[ "title" := JS.Str "x" ]}).
Proof. vm_compute. reflexivity. Qed.

Example order_must_be_a_string :
  CrudController.completion
    (CrudController.getQueryBuilder (Fixture.articles Fixture.accepting)
       Fixture.reader
       (<["orderBy" := JS.Str "id"]>
          {[ "order" := JS.Arr [JS.Str "asc"; JS.Str "desc"] ]})
       false [])
  = Throw TypeError.
Proof. vm_compute. reflexivity. Qed.

Example order_must_be_asc_or_desc :
  CrudController.completion
    (CrudController.getQueryBuilder (Fixture.articles Fixture.accepting)
       Fixture.reader Cases.sideways false [])
  = Throw (TypeORMError OrderNotAscDesc).
Proof. vm_compute. reflexivity. Qed.

Example offset_must_be_a_number :
  CrudController.completion
    (CrudController.getQueryBuilder (Fixture.articles Fixture.accepting)
       Fixture.reader {[ "offset" := JS.Str "next" ]} false [])
  = Throw (TypeORMError SkipNotANumber).
Proof. vm_compute. reflexivity. Qed.

(** ** Facts about values and conditions *)
Section ValueFacts.
Import JS.

Lemma eqb_num_iff (a : value) (z : Z) : eqb a (Num (Int z)) = true <-> a = Num (Int z).
Proof.
  destruct a as [| |b|[x|]|s|l]; simpl; split; try discriminate; try congruence.
  - intros H. apply Z.eqb_eq in H. by subst.
  - intros [= ->]. apply Z.eqb_refl.
Qed.

Lemma eqb_true_iff (a : value) : eqb a (Bool true) = true <-> a = Bool true.
Proof.
  destruct a as [| |[]|[x|]|s|l]; simpl; split; try discriminate; try congruence.
Qed.

Lemma strict_eq_string_iff (v : value) (s : string) :
  strict_eq_string v s = true <-> v = Str s.
Proof.
  destruct v; simpl; split; try discriminate; try congruence.
  - intros H. apply String.eqb_eq in H. by subst.
  - intros [= ->]. apply String.eqb_refl.
Qed.

Lemma get_bound (w : Obj) (k : string) (v : value) : w !! k = Some v -> get w k = v.
Proof. unfold get. by intros ->. Qed.

Lemma get_unbound (w : Obj) (k : string) : w !! k = None -> get w k = Undefined.
Proof. unfold get. by intros ->. Qed.
End ValueFacts.

Section BuilderFacts.
Import JS TypeORM.

Lemma sql_equals_num (column : option value) (z : Z) :
  sql_equals column (Some (Num (Int z))) = true <-> column = Some (Num (Int z)).
Proof.
  destruct column as [a|]; simpl.
  - rewrite eqb_num_iff. split; congruence.
  - split; discriminate.
Qed.

Lemma sql_equals_true (column : option value) :
  sql_equals column (Some (Bool true)) = true <-> column = Some (Bool true).
Proof.
  destruct column as [a|]; simpl.
  - rewrite eqb_true_iff. split; congruence.
  - split; discriminate.
Qed.

(** A group whose conditions are all attached with AND holds when each
    of them does. *)
Lemma holds_all_and (P : Obj) (row : Row) (p : Obj) (c0 : WhereType * Condition)
    (cs : list Condition) :
  holds P row (Brackets (c0 :: map (fun c => (AndWhere, c)) cs) p) =
  holds P row (snd c0) && forallb (holds P row) cs.
Proof.
  destruct c0 as [t c0]. cbn [holds snd].
  generalize (holds P row c0) as acc.
  induction cs as [|c cs IH]; intros acc; cbn [map forallb].
  - by rewrite andb_true_r.
  - rewrite IH. by rewrite andb_assoc.
Qed.

(** A group whose conditions are all attached with OR holds when one of
    them does. *)
Lemma holds_all_or (P : Obj) (row : Row) (p : Obj) (c0 : WhereType * Condition)
    (cs : list Condition) :
  holds P row (Brackets (c0 :: map (fun c => (OrWhere, c)) cs) p) =
  holds P row (snd c0) || existsb (holds P row) cs.
Proof.
  destruct c0 as [t c0]. cbn [holds snd].
  generalize (holds P row c0) as acc.
  induction cs as [|c cs IH]; intros acc; cbn [map existsb].
  - by rewrite orb_false_r.
  - by rewrite IH.
Qed.
End BuilderFacts.

(** ** The compiled restriction and the access group *)
Section AccessFacts.
Import JS TypeORM CrudController.
Import ContentPermissionsKeys.

Lemma compiled_cases (this : CrudController.t) (user : UserEntity.t) :
  getWhereRestrictionsByPermissions this user =
  let fs := EntityFn.ownerFields (entityFn this) in
  let uid := UserEntity.id user in
  match granted this ContentViewAll user,
        granted this ContentViewUnpublished user,
        granted this ContentViewOwn user with
  | true, true, _ => Some ∅
  | true, false, true =>
      Some (bindOwnerFields fs uid (<["isPublished" := Bool true]> ∅))
  | true, false, false => Some (<["isPublished" := Bool true]> ∅)
  | false, _, true => Some (bindOwnerFields fs uid ∅)
  | false, _, false => None
  end.
Proof.
  unfold getWhereRestrictionsByPermissions, granted.
  generalize (EntityFn.name (entityFn this)) as n. intros n.
  destruct (checkPermissionGranted this ContentViewAll n user),
           (checkPermissionGranted this ContentViewUnpublished n user),
           (checkPermissionGranted this ContentViewOwn n user); reflexivity.
Qed.

Lemma bindOwnerFields_other (fs : list string) (uid : Z) (w : Obj) (k : string) :
  k ∉ fs -> bindOwnerFields fs uid w !! k = w !! k.
Proof.
  unfold bindOwnerFields. revert w.
  induction fs as [|f fs IH]; intros w Hk; [done|].
  apply not_elem_of_cons in Hk as [Hne Hk]. cbn [fold_left].
  rewrite IH by done. by rewrite lookup_insert_ne.
Qed.

Lemma bindOwnerFields_bound (fs : list string) (uid : Z) (w : Obj) (k : string) :
  k ∈ fs -> bindOwnerFields fs uid w !! k = Some (Num (Int uid)).
Proof.
  unfold bindOwnerFields. revert w.
  induction fs as [|f fs IH]; intros w Hk; [by apply elem_of_nil in Hk|].
  cbn [fold_left]. destruct (decide (k ∈ fs)) as [Hin|Hout].
  - by apply IH.
  - apply elem_of_cons in Hk as [->|Hk]; [|done].
    fold (bindOwnerFields fs uid (<[f:=Num (Int uid)]> w)).
    rewrite bindOwnerFields_other by done. apply lookup_insert_eq.
Qed.

Lemma hasOwnerFields_forallb (fs : list string) (extraWhere : option Obj) :
  hasOwnerFields fs extraWhere =
  forallb (fun f => defined (read extraWhere f)) fs.
Proof.
  unfold hasOwnerFields.
  assert (G : forall init,
    fold_left (fun res f => res && defined (read extraWhere f)) fs init =
    init && forallb (fun f => defined (read extraWhere f)) fs).
  { induction fs as [|f fs IH]; intros init; cbn [fold_left forallb].
    - by rewrite andb_true_r.
    - rewrite IH. by rewrite andb_assoc. }
  by rewrite G.
Qed.

Lemma hasOwnerFields_bound (fs : list string) (w : Obj) (uid : Z) :
  (forall f, f ∈ fs -> w !! f = Some (Num (Int uid))) ->
  hasOwnerFields fs (Some w) = true.
Proof.
  intros Hw. rewrite hasOwnerFields_forallb. apply forallb_forall.
  intros f Hin. apply list_elem_of_In in Hin. cbn [read]. unfold get.
  by rewrite (Hw f Hin).
Qed.

Lemma hasOwnerFields_unbound (fs : list string) (w : Obj) (f : string) :
  f ∈ fs -> w !! f = None -> hasOwnerFields fs (Some w) = false.
Proof.
  intros Hin Hw. rewrite hasOwnerFields_forallb.
  apply not_true_is_false. intros H.
  rewrite forallb_forall in H. specialize (H f).
  rewrite <- list_elem_of_In in H. specialize (H Hin).
  cbn [read] in H. unfold get in H. by rewrite Hw in H.
Qed.

Lemma ownerTerms_more (i : nat) (fs : list string) (w : Obj)
    (b s : SelectQueryBuilder) :
  wheres (ownerTerms (S i) fs w (b, s)).2 =
    (wheres s ++ map (fun g => (OrWhere, Equals g w)) fs)%list /\
  parameters (ownerTerms (S i) fs w (b, s)).2 =
    match fs with [] => parameters s | _ => w ∪ parameters s end.
Proof.
  revert i b s. induction fs as [|f fs IH]; intros i b s; cbn [ownerTerms].
  - split; [by rewrite app_nil_r | done].
  - destruct (IH (S i) (joinPath f b) (orWhere (Equals f w) s)) as [Hw Hp].
    rewrite Hw, Hp. cbn. split.
    + by rewrite <- app_assoc.
    + destruct fs; [done|]. by rewrite (assoc_L (∪)), (idemp_L (∪)).
Qed.

Lemma ownerTerms_first (fs : list string) (w : Obj) (b : SelectQueryBuilder)
    (a : string) :
  wheres (ownerTerms 0 fs w (b, createQueryBuilder a)).2 = ownerGroup fs w /\
  parameters (ownerTerms 0 fs w (b, createQueryBuilder a)).2 =
    match fs with [] => ∅ | _ => w end.
Proof.
  destruct fs as [|f fs]; [done|]. cbn [ownerTerms].
  destruct (ownerTerms_more 0 fs w (joinPath f b)
              (where_ (Equals f w) (createQueryBuilder a))) as [Hw Hp].
  rewrite Hw, Hp. cbn. split; [done|].
  rewrite (right_id_L ∅ (∪)). destruct fs; [done|]. by rewrite (idemp_L (∪)).
Qed.

Lemma joinPath_keeps (f : string) (b : SelectQueryBuilder) :
  parameters (joinPath f b) = parameters b /\
  orderBys (joinPath f b) = orderBys b.
Proof.
  unfold joinPath. generalize (removelast (split_dot f)) as parts.
  generalize "entity" as res. intros res parts. revert res b.
  induction parts as [|p parts IH]; intros res b; [done|].
  cbn [fold_left]. destruct (IH (res +:+ "." +:+ p)
    (leftJoin (res +:+ "." +:+ p) (res +:+ "." +:+ p) b)) as [-> ->]. done.
Qed.

Lemma ownerTerms_outer (i : nat) (fs : list string) (w : Obj)
    (b s : SelectQueryBuilder) :
  parameters (ownerTerms i fs w (b, s)).1 = parameters b /\
  orderBys (ownerTerms i fs w (b, s)).1 = orderBys b.
Proof.
  revert i b s. induction fs as [|f fs IH]; intros i b s; [done|].
  cbn [ownerTerms].
  destruct (IH (S i) (joinPath f b)
    match i with
    | O => where_ (Equals f w) s
    | S _ => orWhere (Equals f w) s
    end) as [-> ->].
  apply joinPath_keeps.
Qed.

Lemma restrict_orderBys (fs : list string) (w : Obj) (b : SelectQueryBuilder) :
  orderBys (restrict fs w b) = orderBys b.
Proof.
  unfold restrict. destruct (hasOwnerFields fs (Some w)); [|done].
  pose proof (ownerTerms_outer 0 fs w b (createQueryBuilder (alias b))) as [_ Ho].
  by destruct (ownerTerms 0 fs w (b, createQueryBuilder (alias b))).
Qed.

Lemma restrict_wheres (fs : list string) (w : Obj) (b : SelectQueryBuilder) :
  wheres (restrict fs w b) =
    match accessGroup fs w with
    | [] => []
    | inner => [(Simple, Brackets inner w)]
    end /\
  parameters (restrict fs w b) =
    match accessGroup fs w with
    | [] => parameters b
    | _ => w ∪ parameters b
    end.
Proof.
  unfold restrict, accessGroup.
  destruct (hasOwnerFields fs (Some w)).
  - pose proof (ownerTerms_first fs w b (alias b)) as [Hw Hp].
    pose proof (ownerTerms_outer 0 fs w b (createQueryBuilder (alias b))) as [Ho _].
    destruct (ownerTerms 0 fs w (b, createQueryBuilder (alias b))) as [b' sqb2].
    cbn [fst snd] in Hw, Hp, Ho.
    destruct fs as [|f fs]; cbn [ownerGroup] in *;
      destruct (truthy (get w "isPublished"));
      unfold brackets, orWhere, where_, setParameters, set_wheres;
      cbn; rewrite ?Hw, ?Hp, ?Ho; cbn;
      rewrite ?(right_id_L ∅ (∪)), ?(idemp_L (∪)), ?(left_id_L ∅ (∪)); done.
  - destruct (truthy (get w "isPublished"));
      unfold brackets, where_, setParameters, set_wheres; cbn;
      rewrite ?(right_id_L ∅ (∪)), ?(left_id_L ∅ (∪)); done.
Qed.

Lemma ownerGroup_terms (fs : list string) (w : Obj) :
  map snd (ownerGroup fs w) = map (fun f => Equals f w) fs.
Proof.
  destruct fs as [|f fs]; [done|]. cbn [ownerGroup map snd]. f_equal.
  by rewrite map_map.
Qed.

Lemma ownerGroup_tail (fs : list string) (w : Obj) :
  Forall (fun c => c.1 = OrWhere) (tail (ownerGroup fs w)).
Proof.
  destruct fs as [|f fs]; [by constructor|]. cbn [ownerGroup tail].
  apply Forall_forall. intros c Hc. apply list_elem_of_fmap in Hc.
  by destruct Hc as (g & -> & _).
Qed.

Lemma accessGroup_bound (fs : list string) (w : Obj) (uid : Z) :
  (forall f, f ∈ fs -> w !! f = Some (Num (Int uid))) ->
  accessGroup fs w =
  (match fs with
   | [] => []
   | _ :: _ => [(Simple, Brackets (ownerGroup fs w) w)]
   end ++
   if truthy (get w "isPublished")
   then [(OrWhere, Equals "isPublished" w)] else [])%list.
Proof.
  intros Hw. unfold accessGroup. by rewrite (hasOwnerFields_bound fs w uid).
Qed.

Lemma accessGroup_unbound (fs : list string) (w : Obj) (f : string) :
  f ∈ fs -> w !! f = None ->
  accessGroup fs w =
  if truthy (get w "isPublished")
  then [(Simple, Equals "isPublished" w)] else [].
Proof.
  intros Hf Hw. unfold accessGroup. by rewrite (hasOwnerFields_unbound fs w f).
Qed.

Lemma head_elem_of (f : string) (fs : list string) : f ∈ f :: fs.
Proof. apply elem_of_cons. by left. Qed.
End AccessFacts.

(** ** The assembly of the query *)
Section AssemblyFacts.
Import JS TypeORM CrudController.

Lemma filterBy_filterOf (q : Obj) (b : SelectQueryBuilder) (k : string) :
  filterBy q b k = andWhere (filterOf q k) b.
Proof. unfold filterBy, filterOf. by destruct (isArray (get q k)). Qed.

Lemma params_of_filterOf (q : Obj) (k : string) : params_of (filterOf q k) = q.
Proof. unfold filterOf. by destruct (isArray (get q k)). Qed.

Lemma filters_fold (q : Obj) (ks : list string) (b : SelectQueryBuilder) :
  let b' := fold_left (filterBy q) ks b in
  wheres b' = (wheres b ++ map (fun k => (AndWhere, filterOf q k)) ks)%list /\
  parameters b' = match ks with [] => parameters b | _ => q ∪ parameters b end /\
  joins b' = joins b /\ orderBys b' = orderBys b /\
  take b' = take b /\ skip b' = skip b.
Proof.
  revert b. induction ks as [|k ks IH]; intros b; cbn [fold_left map].
  - by rewrite app_nil_r.
  - destruct (IH (filterBy q b k)) as (Hw & Hp & Hj & Ho & Ht & Hs).
    cbn zeta in *. rewrite Hw, Hp, Hj, Ho, Ht, Hs.
    rewrite filterBy_filterOf. cbn. rewrite params_of_filterOf.
    repeat split; try done.
    + by rewrite <- app_assoc.
    + destruct ks; [done|]. by rewrite (assoc_L (∪)), (idemp_L (∪)).
Qed.

Lemma reserved_iff (k : string) :
  k ∈ reservedKeys <->
  k = "limit" \/ k = "page" \/ k = "orderBy" \/ k = "order" \/ k = "offset".
Proof. unfold reservedKeys. rewrite !elem_of_cons, elem_of_nil. tauto. Qed.

Lemma stripReserved_lookup (q : Obj) (k : string) :
  stripReserved q !! k = if decide (k ∈ reservedKeys) then None else q !! k.
Proof.
  unfold stripReserved. cbn [fold_left reservedKeys]. rewrite !lookup_delete.
  destruct (decide (k ∈ reservedKeys)) as [Hk|Hk].
  - apply reserved_iff in Hk.
    destruct Hk as [-> | [-> | [-> | [-> | ->]]]]; reflexivity.
  - rewrite reserved_iff in Hk.
    repeat case_decide; subst; try done; exfalso; apply Hk; eauto 10.
Qed.

Lemma paginate_other (q : Obj) (c : list ConsoleEntry) (k : string) :
  k <> "limit" -> k <> "page" -> (paginate q c).1 !! k = q !! k.
Proof.
  intros H1 H2. unfold paginate. destruct (truthy (get q "limit")).
  - destruct (gt _ _); cbn; by rewrite !lookup_insert_ne.
  - cbn. by rewrite !lookup_insert_ne.
Qed.

Lemma paginate_lookup (q : Obj) (c : list ConsoleEntry) (k : string) :
  k ∉ reservedKeys -> (paginate q c).1 !! k = q !! k.
Proof.
  rewrite reserved_iff. intros Hk.
  apply paginate_other; intros ->; apply Hk; eauto 10.
Qed.

Lemma paginate_limit (q : Obj) (c : list ConsoleEntry) :
  get (paginate q c).1 "limit" =
  if truthy (get q "limit") then
    if gt (parseInt (get q "limit")) (Int maxLimit)
    then Num (Int maxLimit) else Num (parseInt (get q "limit"))
  else Num (Int 25).
Proof.
  unfold paginate. destruct (truthy (get q "limit")).
  - destruct (gt _ _); cbn [fst]; unfold get;
      by rewrite lookup_insert_ne, lookup_insert_eq.
  - cbn [fst]. unfold get. by rewrite lookup_insert_ne, lookup_insert_eq.
Qed.

Lemma paginate_page (q : Obj) (c : list ConsoleEntry) :
  get (paginate q c).1 "page" =
  if truthy (get q "limit") then or_else (get q "page") (Num (Int 0))
  else Num (Int 0).
Proof.
  unfold paginate. destruct (truthy (get q "limit")).
  - destruct (gt _ _); cbn [fst]; unfold get at 1; rewrite lookup_insert_eq;
      cbn [default]; unfold get; by rewrite lookup_insert_ne.
  - cbn [fst]. unfold get. by rewrite lookup_insert_eq.
Qed.

Lemma paginate_console (q : Obj) (c : list ConsoleEntry) :
  (paginate q c).2 =
  if truthy (get q "limit") && gt (parseInt (get q "limit")) (Int maxLimit)
  then (c ++ [ConsoleWarn limitWarning])%list else c.
Proof.
  unfold paginate. destruct (truthy (get q "limit")); [|done].
  by destruct (gt _ _).
Qed.

(** The query after a run keeps the caller's own keys and none of the
    reserved ones. *)
Lemma stripped_lookup (q : Obj) (c : list ConsoleEntry) (k : string) :
  stripReserved (paginate q c).1 !! k =
  if decide (k ∈ reservedKeys) then None else q !! k.
Proof.
  rewrite stripReserved_lookup. case_decide; [done|]. by apply paginate_lookup.
Qed.

Lemma elem_of_keys (q : Obj) (k : string) : k ∈ keys q <-> is_Some (q !! k).
Proof.
  unfold keys. rewrite list_elem_of_fmap. split.
  - intros [[k' v] [-> H]]. apply elem_of_map_to_list in H. by eexists.
  - intros [v H]. exists (k, v). split; [done|]. by apply elem_of_map_to_list.
Qed.

Lemma keys_NoDup (q : Obj) : NoDup (keys q).
Proof. apply NoDup_fst_map_to_list. Qed.

Lemma paginate_console_free (q : Obj) (c : list ConsoleEntry) :
  (paginate q c).1 = (paginate q []).1.
Proof.
  unfold paginate. destruct (truthy (get q "limit")); [|done].
  by destruct (gt _ _).
Qed.

Lemma times_zero (x : Z) :
  times (Int x) (Num (Int 0)) =
  if infinite x then Some NaN else Some (Int 0).
Proof.
  unfold times. cbn [to_reading].
  replace (infinite 0) with false by (vm_compute; reflexivity).
  rewrite orb_false_r, Z.mul_0_r, orb_true_r.
  by destruct (infinite x).
Qed.

Lemma times_tracked (x y : Z) (v : value) :
  to_reading v = Tracked (Int y) ->
  Z.abs (x * y) <= 2 ^ 53 ->
  times (Int x) v = Some (Int (x * y)) \/ times (Int x) v = Some NaN.
Proof.
  intros Hv Hxy. unfold times. rewrite Hv.
  destruct (infinite x || infinite y) eqn:Ei.
  - right.
    assert ((x =? 0) || (y =? 0) = true) as ->; [|done].
    apply orb_true_iff. rewrite !Z.eqb_eq.
    apply orb_true_iff in Ei. unfold infinite in Ei. rewrite !Z.leb_le in Ei.
    assert (Hbig : 2 ^ 53 < overflow) by (vm_compute; reflexivity).
    rewrite Z.abs_mul in Hxy.
    revert Hxy Hbig Ei. generalize (2 ^ 53) as B. generalize overflow as V.
    intros V B Hxy Hbig Ei.
    destruct (Z.eq_dec x 0) as [|Hx]; [by left|].
    destruct (Z.eq_dec y 0) as [|Hy]; [by right|].
    exfalso. assert (1 <= Z.abs x) by lia. assert (1 <= Z.abs y) by lia.
    destruct Ei; nia.
  - left. unfold safe. by rewrite (proj2 (Z.leb_le _ _) Hxy).
Qed.

(** What a returned builder holds, and the state that its run leaves. *)
Lemma getQueryBuilder_returned (this : CrudController.t) (user : UserEntity.t)
    (query : Obj) (skipPermission : bool) (console : list ConsoleEntry)
    (b : SelectQueryBuilder) :
  completion (getQueryBuilder this user query skipPermission console) = Return b ->
  let extraWhere := getWhereRestrictionsByPermissions this user in
  let q1 := (paginate query console).1 in
  let q2 := stripReserved q1 in
  denied extraWhere skipPermission = false /\
  accepted query = true /\
  getQueryBuilder this user query skipPermission console =
    {| completion := Return b; query_after := q2;
       console_after := (paginate query console).2 |} /\
  wheres b =
    (wheres (restricted this extraWhere) ++
     map (fun k => (AndWhere, filterOf q2 k)) (keys q2))%list /\
  parameters b =
    match keys q2 with
    | [] => parameters (restricted this extraWhere)
    | _ => q2 ∪ parameters (restricted this extraWhere)
    end /\
  joins b = joins (restricted this extraWhere) /\
  orderBys b = ordering query /\
  take b = Some (get q1 "limit") /\
  skip b = Some (offsetOf q1).
Proof.
  cbn zeta. unfold getQueryBuilder.
  destruct (denied (getWhereRestrictionsByPermissions this user) skipPermission)
    eqn:Hgo; [discriminate|].
  intros Hb. split; [done|].
  unfold accepted, sortAccepted, pageAccepted, ordering.
  rewrite <- (paginate_console_free query console).
  destruct (truthy (get query "orderBy") && truthy (get query "order")) eqn:Eo;
    cbn [negb orb].
  1: destruct (get query "order") as [| | | |order|] eqn:Eord;
       try discriminate Hb.
  1: unfold addOrderBy in Hb |- *;
       destruct (validOrder (toUpperCase order)) eqn:Ev; [|discriminate Hb].
  all: destruct (paginate query console) as [q1 c1] eqn:Ep; cbn [fst snd] in *.
  all: unfold setTake in Hb |- *;
    destruct (notANumber (get q1 "limit")) eqn:Et; [discriminate Hb|].
  all: unfold setSkip in Hb |- *;
    destruct (refused (offsetOf q1)) eqn:Es; [discriminate Hb|].
  all: cbn [completion] in Hb; injection Hb as <-.
  all: split; [done|]; split; [done|].
  all: match goal with |- context [fold_left (filterBy ?q) ?ks ?b] =>
         destruct (filters_fold q ks b) as (Hw & Hp & Hj & Hob & Ht & Hs) end.
  all: cbn zeta in *; rewrite Hw, Hp, Hj, Hob, Ht, Hs; cbn.
  all: unfold restricted;
    destruct (getWhereRestrictionsByPermissions this user);
    rewrite ?restrict_orderBys; repeat split; done.
Qed.

(** A request that is not denied returns on every query that the
    builder accepts. *)
Lemma getQueryBuilder_accepts (this : CrudController.t) (user : UserEntity.t)
    (query : Obj) (skipPermission : bool) (console : list ConsoleEntry) :
  denied (getWhereRestrictionsByPermissions this user) skipPermission = false ->
  accepted query = true ->
  exists b,
    completion (getQueryBuilder this user query skipPermission console)
      = Return b.
Proof.
  intros Hgo Ha. unfold accepted, sortAccepted, pageAccepted in Ha.
  rewrite <- (paginate_console_free query console) in Ha.
  apply andb_true_iff in Ha as [Hs Hp]. apply andb_true_iff in Hp as [Ht Hk].
  apply negb_true_iff in Ht, Hk.
  unfold getQueryBuilder. rewrite Hgo.
  destruct (truthy (get query "orderBy") && truthy (get query "order"));
    cbn [negb orb] in Hs.
  1: destruct (get query "order"); try discriminate Hs;
       unfold addOrderBy; rewrite Hs.
  all: destruct (paginate query console) as [q1 c1]; cbn [fst] in *;
    unfold setTake, setSkip; rewrite Ht, Hk; by eexists.
Qed.

(** A run throws [UnauthorizedException] only at line 202. *)
Lemma unauthorized_only_when_denied (this : CrudController.t)
    (user : UserEntity.t) (query : Obj) (skipPermission : bool)
    (console : list ConsoleEntry) :
  completion (getQueryBuilder this user query skipPermission console)
    = Throw UnauthorizedException ->
  denied (getWhereRestrictionsByPermissions this user) skipPermission = true.
Proof.
  unfold getQueryBuilder.
  destruct (denied (getWhereRestrictionsByPermissions this user) skipPermission);
    [done|].
  destruct (truthy (get query "orderBy") && truthy (get query "order")).
  1: destruct (get query "order"); try discriminate;
       unfold addOrderBy; destruct (validOrder _); [|discriminate].
  all: destruct (paginate query console) as [q1 c1];
    unfold setTake, setSkip;
    destruct (notANumber _); [discriminate|];
    destruct (refused _); discriminate.
Qed.

(** A query that has been through a run holds none of the reserved
    keys. *)
Lemma stripped_again (q : Obj) (c c' : list ConsoleEntry) :
  stripReserved (paginate (stripReserved (paginate q c).1) c').1 =
  stripReserved (paginate q c).1.
Proof.
  apply map_eq. intros k. rewrite (stripped_lookup _ c'), !stripped_lookup.
  by case_decide.
Qed.

Lemma stripped_get (q : Obj) (c : list ConsoleEntry) (k : string) :
  k ∈ reservedKeys -> get (stripReserved (paginate q c).1) k = Undefined.
Proof.
  intros Hk. unfold get. rewrite stripped_lookup. by rewrite decide_True.
Qed.

Lemma reserved_elem (k : string) :
  k = "limit" \/ k = "page" \/ k = "orderBy" \/ k = "order" \/ k = "offset" ->
  k ∈ reservedKeys.
Proof. apply reserved_iff. Qed.

Lemma stripped_keys (q : Obj) (c : list ConsoleEntry) (k : string) :
  k ∈ keys (stripReserved (paginate q c).1) <->
  is_Some (q !! k) /\ k ∉ reservedKeys.
Proof.
  rewrite elem_of_keys, stripped_lookup. case_decide.
  - split; [by intros [? ?] | by intros [_ ?]].
  - tauto.
Qed.
End AssemblyFacts.

(** ** The rows a builder selects *)
Section SelectionFacts.
Import JS TypeORM CrudController.

Lemma holds_ownerGroup (P : Obj) (row : Row) (fs : list string) (w p : Obj) :
  fs <> [] ->
  holds P row (Brackets (ownerGroup fs w) p) =
  existsb (fun f => sql_equals (row !! f) (P !! f)) fs.
Proof.
  destruct fs as [|f fs]; [done|]. intros _. cbn [ownerGroup].
  replace (map (fun g => (OrWhere, Equals g w)) fs)
    with (map (fun c => (OrWhere, c)) (map (fun g => Equals g w) fs))
    by (rewrite map_map; reflexivity).
  rewrite holds_all_or. cbn [snd holds existsb]. f_equal.
  induction fs as [|g fs IH]; [done|]. cbn. by rewrite IH.
Qed.

Lemma holds_filters (P : Obj) (row : Row) (q : Obj) (ks : list string) (p : Obj) :
  holds P row (Brackets (map (fun k => (AndWhere, filterOf q k)) ks) p) =
  forallb (fun k => holds P row (filterOf q k)) ks.
Proof.
  destruct ks as [|k ks]; [done|]. cbn [map forallb].
  rewrite <- (map_map (filterOf q) (fun c => (AndWhere, c))).
  rewrite holds_all_and. cbn [snd]. f_equal.
  induction ks as [|k' ks IH]; [done|]. cbn. by rewrite IH.
Qed.

Lemma matches_restrict (fs : list string) (w : Obj) (a : string) (row : Row) :
  matches (restrict fs w (createQueryBuilder a)) row =
  holds w row (Brackets (accessGroup fs w) w).
Proof.
  unfold matches, brackets.
  destruct (restrict_wheres fs w (createQueryBuilder a)) as [-> ->].
  destruct (accessGroup fs w) as [|c cs] eqn:E; [done|].
  cbn [parameters createQueryBuilder]. rewrite (right_id_L ∅ (∪)).
  reflexivity.
Qed.

Lemma matches_restricted (this : CrudController.t) (w : Obj) (row : Row) :
  matches (restricted this (Some w)) row =
  holds w row (Brackets (accessGroup (EntityFn.ownerFields (entityFn this)) w) w).
Proof. unfold restricted. apply matches_restrict. Qed.

(** What the outer group selects. *)
Lemma holds_accessGroup (fs : list string) (w : Obj) (row : Row) :
  holds w row (Brackets (accessGroup fs w) w) =
  let published := sql_equals (row !! "isPublished") (w !! "isPublished") in
  match hasOwnerFields fs (Some w), fs with
  | true, _ :: _ =>
      existsb (fun f => sql_equals (row !! f) (w !! f)) fs
      || truthy (get w "isPublished") && published
  | _, _ => if truthy (get w "isPublished") then published else true
  end.
Proof.
  unfold accessGroup. destruct (hasOwnerFields fs (Some w)).
  - destruct fs as [|f fs].
    + by destruct (truthy (get w "isPublished")).
    + rewrite <- (holds_ownerGroup w row (f :: fs) w w) by done.
      destruct (truthy (get w "isPublished")); cbn [app holds].
      * rewrite andb_true_l. reflexivity.
      * by rewrite orb_false_r.
  - by destruct fs; destruct (truthy (get w "isPublished")).
Qed.

Lemma holds_accessGroup_owner (fs : list string) (w : Obj) (row : Row) :
  hasOwnerFields fs (Some w) = true -> fs <> [] ->
  holds w row (Brackets (accessGroup fs w) w) =
  existsb (fun f => sql_equals (row !! f) (w !! f)) fs
  || truthy (get w "isPublished")
     && sql_equals (row !! "isPublished") (w !! "isPublished").
Proof.
  intros Hh Hne. rewrite holds_accessGroup, Hh. by destruct fs.
Qed.

Lemma holds_accessGroup_plain (fs : list string) (w : Obj) (row : Row) :
  hasOwnerFields fs (Some w) = false \/ fs = [] ->
  holds w row (Brackets (accessGroup fs w) w) =
  if truthy (get w "isPublished")
  then sql_equals (row !! "isPublished") (w !! "isPublished") else true.
Proof.
  intros H. rewrite holds_accessGroup. destruct H as [-> | ->]; [done|].
  by destruct (hasOwnerFields _ _).
Qed.

Lemma existsb_owner (fs : list string) (w : Obj) (uid : Z) (row : Row) :
  (forall f, f ∈ fs -> w !! f = Some (Num (Int uid))) ->
  existsb (fun f => sql_equals (row !! f) (w !! f)) fs = true <->
  exists f, f ∈ fs /\ row !! f = Some (Num (Int uid)).
Proof.
  intros Hw. rewrite existsb_exists. split.
  - intros (f & Hin & Heq). apply list_elem_of_In in Hin.
    rewrite (Hw f Hin) in Heq. apply sql_equals_num in Heq. eauto.
  - intros (f & Hin & Heq). exists f. split; [by apply list_elem_of_In|].
    rewrite (Hw f Hin). by apply sql_equals_num.
Qed.

Lemma holds_accessGroup_with (P : Obj) (fs : list string) (w : Obj)
    (row : Row) :
  holds P row (Brackets (accessGroup fs w) w) =
  let published := sql_equals (row !! "isPublished") (P !! "isPublished") in
  match hasOwnerFields fs (Some w), fs with
  | true, _ :: _ =>
      existsb (fun f => sql_equals (row !! f) (P !! f)) fs
      || truthy (get w "isPublished") && published
  | _, _ => if truthy (get w "isPublished") then published else true
  end.
Proof.
  unfold accessGroup. destruct (hasOwnerFields fs (Some w)).
  - destruct fs as [|f fs].
    + by destruct (truthy (get w "isPublished")).
    + rewrite <- (holds_ownerGroup P row (f :: fs) w w) by done.
      destruct (truthy (get w "isPublished")); cbn [app holds].
      * rewrite andb_true_l. reflexivity.
      * by rewrite orb_false_r.
  - by destruct fs; destruct (truthy (get w "isPublished")).
Qed.

Lemma holds_accessGroup_under (P : Obj) (fs : list string) (w : Obj)
    (row : Row) :
  (forall k, is_Some (w !! k) -> P !! k = w !! k) ->
  holds P row (Brackets (accessGroup fs w) w) =
  holds w row (Brackets (accessGroup fs w) w).
Proof.
  intros HP. rewrite !holds_accessGroup_with. cbn zeta.
  assert (Hpub : truthy (get w "isPublished") = true ->
            P !! "isPublished" = w !! "isPublished").
  { intros Ht. apply HP. unfold get in Ht.
    destruct (w !! "isPublished"); [by eexists|done]. }
  destruct (hasOwnerFields fs (Some w)) eqn:Hh.
  - assert (Hfs : forall f, f ∈ fs -> P !! f = w !! f).
    { intros f Hf. apply HP. rewrite hasOwnerFields_forallb in Hh.
      rewrite forallb_forall in Hh. specialize (Hh f).
      rewrite <- list_elem_of_In in Hh. specialize (Hh Hf).
      cbn [read] in Hh. unfold get in Hh.
      destruct (w !! f); [by eexists|done]. }
    assert (Hex : existsb (fun f => sql_equals (row !! f) (P !! f)) fs =
                  existsb (fun f => sql_equals (row !! f) (w !! f)) fs).
    { clear Hh. induction fs as [|f fs IH]; [done|]. cbn [existsb].
      rewrite (Hfs f) by apply head_elem_of. rewrite IH; [done|].
      intros g Hg. apply Hfs. by apply elem_of_cons; right. }
    rewrite Hex.
    destruct (truthy (get w "isPublished")); [by rewrite Hpub|done].
  - destruct (truthy (get w "isPublished")); [by rewrite Hpub|done].
Qed.

Lemma holds_filterOf_under (P q : Obj) (row : Row) (k : string) :
  P !! k = q !! k ->
  holds P row (filterOf q k) = holds q row (filterOf q k).
Proof.
  intros HP. unfold filterOf. destruct (isArray (get q k)); cbn; by rewrite HP.
Qed.

Lemma forallb_compose {A B : Type} (f : B -> bool) (g : A -> B) (l : list A) :
  forallb f (map g l) = forallb (fun x => f (g x)) l.
Proof. induction l as [|x l IH]; [done|]. cbn. by rewrite IH. Qed.

Lemma forallb_filters_under (P q : Obj) (row : Row) (ks : list string) :
  (forall k, k ∈ ks -> P !! k = q !! k) ->
  forallb (fun k => holds P row (filterOf q k)) ks =
  forallb (fun k => holds q row (filterOf q k)) ks.
Proof.
  induction ks as [|k ks IH]; intros HP; [done|]. cbn [forallb].
  rewrite (holds_filterOf_under P q row k) by (apply HP, head_elem_of).
  rewrite IH; [done|]. intros g Hg. apply HP. by apply elem_of_cons; right.
Qed.

(** The caller's filters, as the builder holds them after a run, ask of
    a row what [passes] says. *)
Lemma filters_pass (query : Obj) (console : list ConsoleEntry) (row : Row) :
  let remaining := stripReserved (paginate query console).1 in
  forallb (fun k => holds remaining row (filterOf remaining k)) (keys remaining)
    = true <->
  passes query row.
Proof.
  cbn zeta. rewrite forallb_forall. unfold passes. split.
  - intros H k v Hq Hres.
    assert (Hrem : stripReserved (paginate query console).1 !! k = Some v).
    { rewrite stripped_lookup. by rewrite decide_False. }
    specialize (H k). rewrite <- list_elem_of_In, elem_of_keys in H.
    specialize (H (ex_intro _ v Hrem)).
    unfold filterOf, get in H. rewrite Hrem in H. cbn [default from_option id] in H.
    destruct (isArray v); cbn [holds] in H; by rewrite Hrem in H.
  - intros H k Hin. apply list_elem_of_In, elem_of_keys in Hin as [v Hv].
    pose proof Hv as Hq. rewrite stripped_lookup in Hq.
    case_decide as Hres; [done|]. specialize (H k v Hq Hres).
    unfold filterOf, get. rewrite Hv. cbn [default from_option id].
    destruct (isArray v); cbn [holds]; by rewrite Hv.
Qed.

(** When no key of the caller's query is bound in the compiled object,
    a returned builder selects the rows of the restriction that pass
    the caller's filters. *)
Lemma returned_selection (this : CrudController.t) (user : UserEntity.t)
    (w : Obj) (query : Obj) (console : list ConsoleEntry)
    (b : SelectQueryBuilder) :
  getWhereRestrictionsByPermissions this user = Some w ->
  completion (getQueryBuilder this user query false console) = Return b ->
  (forall k, k ∈ keys query -> w !! k = None) ->
  forall row,
    matches b row = true <->
    matches (restricted this (Some w)) row = true /\ passes query row.
Proof.
  intros Hw Hb Hdis row.
  destruct (getQueryBuilder_returned this user query false console b Hb)
    as (_ & _ & _ & Hwh & Hp & _).
  rewrite Hw in *.
  rewrite <- (filters_pass query console row). cbn zeta.
  set (q2 := stripReserved (paginate query console).1) in *.
  rewrite <- andb_true_iff.
  assert (Hfree : forall k, is_Some (w !! k) -> q2 !! k = None).
  { intros k Hk. unfold q2. rewrite stripped_lookup. case_decide; [done|].
    destruct (query !! k) as [v|] eqn:E; [|done].
    assert (w !! k = None) as Hn by (apply Hdis, elem_of_keys; by eexists).
    rewrite Hn in Hk. by destruct Hk. }
  rewrite matches_restricted.
  set (fs := EntityFn.ownerFields (entityFn this)) in *.
  unfold restricted in Hwh, Hp. fold fs in Hwh, Hp.
  destruct (restrict_wheres fs w (createQueryBuilder "entity")) as [Ew Ep].
  rewrite Ew in Hwh. rewrite Ep in Hp. cbn [parameters createQueryBuilder] in Hp.
  rewrite (right_id_L ∅ (∪)) in Hp.
  unfold matches, brackets. rewrite Hwh, Hp.
  assert (Hfil : forall P, (forall k, k ∈ keys q2 -> P !! k = q2 !! k) ->
    forallb (fun k => holds P row (filterOf q2 k)) (keys q2) =
    forallb (fun k => holds q2 row (filterOf q2 k)) (keys q2))
    by (intros P HP; by apply forallb_filters_under).
  match goal with |- ?l = true <-> ?r = true => cut (l = r); [by intros ->|] end.
  destruct (accessGroup fs w) as [|c cs] eqn:Eg.
  - cbn [app]. rewrite holds_filters.
    change (holds w row (Brackets [] w)) with true. cbn [andb].
    apply Hfil. intros k Hk.
    destruct (keys q2); [by apply elem_of_nil in Hk|].
    by rewrite (right_id_L ∅ (∪)).
  - cbn [app]. rewrite <- (map_map (filterOf q2) (fun c => (AndWhere, c))).
    rewrite holds_all_and. cbn [snd].
    rewrite forallb_compose. destruct (keys q2) as [|k0 ks] eqn:Ek.
    + done.
    + rewrite <- Ek in *. f_equal.
      * rewrite <- Eg. apply holds_accessGroup_under. intros k Hk.
        rewrite lookup_union_r; [done|]. by apply Hfree.
      * apply Hfil. intros k Hk. apply elem_of_keys in Hk as [v Hv].
        rewrite Hv. by apply lookup_union_Some_l.
Qed.
End SelectionFacts.

(** ** The query builder of a request *)
Section QueryClaims.
Import JS TypeORM CrudController.
Import ContentPermissionsKeys.

(** Claim C1.  The compiled restriction is the denial ([None]) exactly
    when neither view-all nor view-own is granted to the user for the
    entity of the controller; a denied request that does not ask for
    the bypass throws [UnauthorizedException] at once: no builder
    exists, the query object is the caller's, untouched, and nothing
    was written to the console; and a request that asks for the bypass
    never throws it. *)
Theorem getQueryBuilder_denied_unauthorized (this : CrudController.t)
    (user : UserEntity.t) :
  (getWhereRestrictionsByPermissions this user = None <->
   granted this ContentViewAll user = false /\
   granted this ContentViewOwn user = false) /\
  (getWhereRestrictionsByPermissions this user = None ->
   forall (query : Obj) (console : list ConsoleEntry),
     getQueryBuilder this user query false console =
     {| completion := Throw UnauthorizedException;
        query_after := query; console_after := console |}) /\
  (forall (query : Obj) (console : list ConsoleEntry),
     completion (getQueryBuilder this user query true console)
     <> Throw UnauthorizedException).
Proof.
  split; [|split].
  - rewrite compiled_cases. cbn zeta.
    destruct (granted this ContentViewAll user),
             (granted this ContentViewUnpublished user),
             (granted this ContentViewOwn user);
      split; try done; intros [? ?]; done.
  - intros Hd query console. unfold getQueryBuilder. by rewrite Hd.
  - intros query console H. apply unauthorized_only_when_denied in H.
    unfold denied in H. by rewrite andb_false_r in H.
Qed.

(** Claim C5, amended.  Of every run that returns a builder.  A
    parameter counts as supplied when its value is truthy, which is how
    lines 244 and 259 test it.  Without a limit the builder takes 25
    rows and, no offset being given, skips 25 x 0.  A supplied limit
    reads as an integer [n]: above 100 the builder takes 100 and one
    warning is logged; up to 100 (and down to -2^53, below which a
    Number no longer holds every integer) it takes [n] and nothing is
    logged; no offset being given, it skips nothing when the page is
    missing, and [min n 100 * p] rows when the page reads as the
    integer [p] and that product is within 2^53.  A supplied offset is
    passed to [skip] as it is. *)
Theorem getQueryBuilder_pagination (this : CrudController.t)
    (user : UserEntity.t) (query : Obj)
    (skipPermission : bool) (console : list ConsoleEntry)
    (b : SelectQueryBuilder) :
  let run := getQueryBuilder this user query skipPermission console in
  let limit := get query "limit" in
  let page := get query "page" in
  let offset := get query "offset" in
  completion run = Return b ->
  (truthy limit = false ->
     take b = Some (Num (Int 25)) /\ console_after run = console /\
     (truthy offset = false -> skip b = Some (Exactly (Num (Int 0))))) /\
  (truthy limit = true -> exists n, parseInt limit = Int n) /\
  (forall n, truthy limit = true -> parseInt limit = Int n ->
     (100 < n ->
        take b = Some (Num (Int 100)) /\
        console_after run = (console ++ [ConsoleWarn limitWarning])%list) /\
     (- 2 ^ 53 <= n <= 100 ->
        take b = Some (Num (Int n)) /\ console_after run = console) /\
     (truthy offset = false ->
        (truthy page = false -> skip b = Some (Exactly (Num (Int 0)))) /\
        (forall p, truthy page = true -> to_number page = Some (Int p) ->
           Z.abs (Z.min n 100 * p) <= 2 ^ 53 ->
           skip b = Some (Exactly (Num (Int (Z.min n 100 * p))))))) /\
  (truthy offset = true -> skip b = Some (Exactly offset)).
Proof.
  cbn zeta. intros Hb.
  destruct (getQueryBuilder_returned this user query skipPermission console b Hb)
    as (_ & Ha & Hrun & _ & _ & _ & _ & Ht & Hs).
  rewrite Hrun. cbn [console_after].
  rewrite Ht, Hs, paginate_console.
  unfold accepted, pageAccepted in Ha. apply andb_true_iff in Ha as [_ Ha].
  apply andb_true_iff in Ha as [Hlim Hoff].
  rewrite <- (paginate_console_free query console) in Hlim, Hoff.
  rewrite paginate_limit in Hlim. apply negb_true_iff in Hoff.
  clear Ht Hs Hrun Hb b.
  unfold offsetOf in *. rewrite paginate_limit, paginate_page in *.
  assert (Eo : get (paginate query console).1 "offset" = get query "offset").
  { unfold get. by rewrite paginate_other. }
  rewrite Eo in *. clear Eo.
  unfold gt, maxLimit in *. split; [|split; [|split]].
  - intros Hl. rewrite Hl in *. cbn [andb]. repeat split. by intros ->.
  - intros Hl. rewrite Hl in Hlim.
    destruct (parseInt (get query "limit")) as [n|]; [by exists n|done].
  - intros n Hl Hn. rewrite Hl, Hn in *. cbn [andb]. clear Hlim.
    assert (Hpage : forall m p,
              to_number (get query "page") = Some (Int p) ->
              Z.abs (m * p) <= 2 ^ 53 ->
              times (Int m) (get query "page") = Some (Int (m * p)) \/
              times (Int m) (get query "page") = Some NaN).
    { intros m p Hp Hm. unfold to_number in Hp.
      destruct (to_reading (get query "page")) as [[y|]| |] eqn:Er;
        try discriminate Hp.
      injection Hp as ->. by apply times_tracked. }
    destruct (100 <? n) eqn:E; [apply Z.ltb_lt in E|apply Z.ltb_ge in E];
      (split; [|split]); try (intros; lia); try done.
    + intros Ho. rewrite Ho in *. unfold or_else in *.
      rewrite (Z.min_r n 100) by lia. split.
      * by intros ->.
      * intros p Hp Hr Hm. rewrite Hp in *.
        destruct (Hpage 100 p Hr Hm) as [Et|Et]; rewrite Et in *; done.
    + intros Ho. rewrite Ho in *. unfold or_else in *.
      rewrite (Z.min_l n 100) by lia. split.
      * intros Hp. rewrite Hp, times_zero in *. by destruct (infinite n).
      * intros p Hp Hr Hm. rewrite Hp in *.
        destruct (Hpage n p Hr Hm) as [Et|Et]; rewrite Et in *; done.
  - by intros ->.
Qed.

(** Claim C6, amended.  After a run that returns a builder, the caller's
    query object holds none of the five reserved keys and every other
    key with its value; the conditions of the builder are those of the
    access restriction followed by one condition per remaining key,
    each attached with AND: membership for an array value, equality for
    any other. *)
Theorem getQueryBuilder_caller_filters (this : CrudController.t)
    (user : UserEntity.t) (query : Obj)
    (skipPermission : bool) (console : list ConsoleEntry)
    (b : SelectQueryBuilder) :
  let run := getQueryBuilder this user query skipPermission console in
  let remaining := query_after run in
  completion run = Return b ->
  (forall k, k ∈ reservedKeys -> remaining !! k = None) /\
  (forall k, k ∉ reservedKeys -> remaining !! k = query !! k) /\
  wheres b =
    (wheres (restricted this (getWhereRestrictionsByPermissions this user)) ++
     map (fun k => (AndWhere, filterOf remaining k)) (keys remaining))%list /\
  NoDup (keys remaining) /\
  (forall k, k ∈ keys remaining <-> is_Some (query !! k) /\ k ∉ reservedKeys) /\
  (forall k, k ∈ keys remaining ->
     filterOf remaining k =
     if isArray (get query k) then IsIn k remaining else Equals k remaining).
Proof.
  cbn zeta. intros Hb.
  destruct (getQueryBuilder_returned this user query skipPermission console b Hb)
    as (_ & _ & Hrun & Hw & _).
  rewrite Hrun. cbn [query_after].
  assert (Hin : forall k, k ∉ reservedKeys ->
            stripReserved (paginate query console).1 !! k = query !! k).
  { intros k Hk. rewrite stripped_lookup. by rewrite decide_False. }
  assert (Hout : forall k, k ∈ reservedKeys ->
            stripReserved (paginate query console).1 !! k = None).
  { intros k Hk. rewrite stripped_lookup. by rewrite decide_True. }
  split; [exact Hout|]. split; [exact Hin|]. split; [exact Hw|].
  split; [apply keys_NoDup|]. split; [apply stripped_keys|].
  intros k Hk. apply stripped_keys in Hk as [_ Hk]. unfold filterOf, get.
  by rewrite Hin.
Qed.

(** Claim C10, amended.  For a user whose compiled restriction is the
    denial, a call with [skipPermission = true] never throws
    [UnauthorizedException], and it returns a builder exactly on the
    queries whose sort, limit and offset the builder accepts.  The
    builder it returns has no join and no condition but the caller's
    own filters, one per key that is not reserved: it selects the rows
    that pass these filters, hence every row when the caller filters
    nothing; and a permitted run on the same query differs from it by
    the access restriction alone, with the same sort, limit and
    offset. *)
Theorem getQueryBuilder_bypass (this : CrudController.t) (user : UserEntity.t)
    (query : Obj) (console : list ConsoleEntry) :
  getWhereRestrictionsByPermissions this user = None ->
  let run := getQueryBuilder this user query true console in
  let remaining := query_after run in
  (accepted query = true <-> exists b, completion run = Return b) /\
  completion run <> Throw UnauthorizedException /\
  forall b, completion run = Return b ->
    joins b = [] /\
    wheres b =
      map (fun k =>
             (AndWhere,
              if isArray (get query k) then IsIn k remaining
              else Equals k remaining))
        (keys remaining) /\
    (forall k, k ∈ keys remaining <-> is_Some (query !! k) /\ k ∉ reservedKeys) /\
    (Forall (fun k => plain k = true) (keys query) ->
     forall row, matches b row = true <-> passes query row) /\
    (Forall (fun k => k ∈ reservedKeys) (keys query) ->
     forall row, matches b row = true) /\
    (forall user' w b',
       getWhereRestrictionsByPermissions this user' = Some w ->
       completion (getQueryBuilder this user' query false console) = Return b' ->
       wheres b' = (wheres (restricted this (Some w)) ++ wheres b)%list /\
       orderBys b' = orderBys b /\ take b' = take b /\ skip b' = skip b /\
       query_after (getQueryBuilder this user' query false console) = remaining).
Proof.
  intros Hd. cbn zeta.
  assert (Hgo : denied (getWhereRestrictionsByPermissions this user) true = false)
    by (unfold denied; apply andb_false_r).
  split; [|split].
  - split.
    + by apply getQueryBuilder_accepts.
    + intros [b Hb].
      by destruct (getQueryBuilder_returned this user query true console b Hb)
        as (_ & Ha & _).
  - intros H. apply unauthorized_only_when_denied in H. congruence.
  - intros b Hb.
    destruct (getQueryBuilder_returned this user query true console b Hb)
      as (_ & _ & Hrun & Hw & Hp & Hj & Ho & Ht & Hs).
    rewrite Hrun. cbn [query_after]. rewrite Hd in *.
    set (q2 := stripReserved (paginate query console).1) in *.
    unfold restricted in Hw, Hp, Hj.
    cbn [createQueryBuilder wheres parameters joins app] in Hw, Hp, Hj.
    assert (Hm : forall row, matches b row =
      forallb (fun k => holds q2 row (filterOf q2 k)) (keys q2)).
    { intros row. unfold matches, brackets. rewrite Hw, Hp, holds_filters.
      destruct (keys q2); [done|]. by rewrite (right_id_L ∅ (∪)). }
    split; [done|]. split.
    { rewrite Hw. apply map_ext_in. intros k Hk.
      apply list_elem_of_In, stripped_keys in Hk as [_ Hk].
      unfold filterOf, get, q2. rewrite stripped_lookup.
      by rewrite decide_False. }
    split; [apply stripped_keys|]. split.
    { intros _ row. rewrite Hm. apply filters_pass. }
    split.
    { intros Hk row. rewrite Hm. apply forallb_forall. intros k Hin.
      apply list_elem_of_In, stripped_keys in Hin as [Hq Hres].
      apply elem_of_keys in Hq.
      destruct (Hres (proj1 (Forall_forall _ _) Hk k Hq)). }
    intros user' w b' Hw' Hb'.
    destruct (getQueryBuilder_returned this user' query false console b' Hb')
      as (_ & _ & Hrun' & Hw2 & _ & _ & Ho2 & Ht2 & Hs2).
    rewrite Hrun'. cbn [query_after]. rewrite Hw' in *.
    by rewrite Hw2, Ho2, Ht2, Hs2, Hw, Ho, Ht, Hs.
Qed.
End QueryClaims.

(** ** The access restriction *)
Section AccessClaims.
Import JS TypeORM CrudController.
Import ContentPermissionsKeys.

(** Claim C2, amended.  For a user granted view-own and not view-all, on
    a resource with at least one owner field, the compiled object binds
    every owner field to the user's id, and the restriction combines the
    per-field equalities with OR: as lines 211 to 240 build it, it
    selects a row exactly when at least one owner field of the row is
    the user's id; and for a query of plain keys, none of them bound in
    the compiled object, a returned builder selects a row exactly when
    at least one owner field of the row is the user's id and the row
    passes the caller's filters. *)
Theorem own_scope_any_owner_field (this : CrudController.t)
    (user : UserEntity.t) :
  let fs := EntityFn.ownerFields (entityFn this) in
  let uid := UserEntity.id user in
  granted this ContentViewAll user = false ->
  granted this ContentViewOwn user = true ->
  fs <> [] ->
  exists w,
    getWhereRestrictionsByPermissions this user = Some w /\
    (forall f, f ∈ fs -> w !! f = Some (Num (Int uid))) /\
    (forall row,
       matches (restricted this (Some w)) row = true <->
       exists f, f ∈ fs /\ row !! f = Some (Num (Int uid))) /\
    (forall query console b,
       completion (getQueryBuilder this user query false console) = Return b ->
       Forall (fun k => plain k = true /\ w !! k = None) (keys query) ->
       forall row,
         matches b row = true <->
         (exists f, f ∈ fs /\ row !! f = Some (Num (Int uid))) /\
         passes query row).
Proof.
  cbn zeta. intros EA EO Hne.
  pose proof (compiled_cases this user) as Hc. cbn zeta in Hc.
  rewrite EA, EO in Hc.
  assert (Hc' : getWhereRestrictionsByPermissions this user =
    Some (bindOwnerFields (EntityFn.ownerFields (entityFn this))
            (UserEntity.id user) ∅))
    by (by destruct (granted this ContentViewUnpublished user)).
  clear Hc.
  set (fs := EntityFn.ownerFields (entityFn this)) in *.
  set (uid := UserEntity.id user) in *.
  set (w := bindOwnerFields fs uid ∅) in *.
  assert (Hb : forall f, f ∈ fs -> w !! f = Some (Num (Int uid)))
    by (intros; by apply bindOwnerFields_bound).
  assert (Hrows : forall row,
    matches (restricted this (Some w)) row = true <->
    exists f, f ∈ fs /\ row !! f = Some (Num (Int uid))).
  { intros row. rewrite matches_restricted. fold fs.
    rewrite holds_accessGroup_owner
      by (done || apply (hasOwnerFields_bound fs w uid Hb)).
    rewrite orb_true_iff, (existsb_owner fs w uid row Hb). split; [|tauto].
    intros [H|H]; [done|]. apply andb_true_iff in H as [Ht Hp].
    destruct (decide ("isPublished" ∈ fs)) as [Hin|Hout].
    + exists "isPublished". split; [done|].
      rewrite (Hb _ Hin) in Hp. by apply sql_equals_num in Hp.
    + unfold w in Ht. rewrite get_unbound in Ht; [done|].
      by rewrite bindOwnerFields_other. }
  exists w. split; [done|]. split; [done|]. split; [done|].
  intros query console b Hrun Hkeys row.
  rewrite (returned_selection this user w query console b Hc' Hrun)
    by (intros k Hk; by apply (proj1 (Forall_forall _ _) Hkeys)).
  by rewrite Hrows.
Qed.

(** Claim C4, amended.  For a user granted view-all and not
    view-unpublished, on a resource whose owner fields do not include
    [isPublished], the compiled object carries [isPublished = true],
    and also binds every owner field to the user's id when view-own is
    granted.  The restriction, as lines 211 to 240 build it, selects a
    row exactly when it is published or, view-own being granted, when
    one of its owner fields is the user's id: view-own adds the user's
    own rows to the published ones and removes none.  For a query of
    plain keys, none of them bound in the compiled object, a returned
    builder selects these rows as far as they pass the caller's
    filters. *)
Theorem published_scope_admits_own_rows (this : CrudController.t)
    (user : UserEntity.t) :
  let fs := EntityFn.ownerFields (entityFn this) in
  let uid := UserEntity.id user in
  let viewOwn := granted this ContentViewOwn user in
  granted this ContentViewAll user = true ->
  granted this ContentViewUnpublished user = false ->
  "isPublished" ∉ fs ->
  exists w,
    getWhereRestrictionsByPermissions this user = Some w /\
    w !! "isPublished" = Some (Bool true) /\
    (viewOwn = true -> forall f, f ∈ fs -> w !! f = Some (Num (Int uid))) /\
    (forall row,
       matches (restricted this (Some w)) row = true <->
       row !! "isPublished" = Some (Bool true) \/
       viewOwn = true /\ exists f, f ∈ fs /\ row !! f = Some (Num (Int uid))) /\
    (forall query console b,
       completion (getQueryBuilder this user query false console) = Return b ->
       Forall (fun k => plain k = true /\ w !! k = None) (keys query) ->
       forall row,
         matches b row = true <->
         (row !! "isPublished" = Some (Bool true) \/
          viewOwn = true /\
          exists f, f ∈ fs /\ row !! f = Some (Num (Int uid))) /\
         passes query row).
Proof.
  cbn zeta. intros EA EU Hpub.
  pose proof (compiled_cases this user) as Hc. cbn zeta in Hc.
  rewrite EA, EU in Hc.
  set (fs := EntityFn.ownerFields (entityFn this)) in *.
  set (uid := UserEntity.id user) in *.
  destruct (granted this ContentViewOwn user) eqn:EO.
  - set (w := bindOwnerFields fs uid (<["isPublished":=Bool true]> ∅)) in *.
    assert (Hb : forall f, f ∈ fs -> w !! f = Some (Num (Int uid)))
      by (intros; by apply bindOwnerFields_bound).
    assert (Hp : w !! "isPublished" = Some (Bool true)).
    { unfold w. rewrite bindOwnerFields_other by done. apply lookup_insert_eq. }
    assert (Hrows : forall row,
      matches (restricted this (Some w)) row = true <->
      row !! "isPublished" = Some (Bool true) \/
      true = true /\ exists f, f ∈ fs /\ row !! f = Some (Num (Int uid))).
    { intros row. rewrite matches_restricted. fold fs.
      destruct (decide (fs = [])) as [Hnil|Hne].
      * rewrite holds_accessGroup_plain by (by right).
        rewrite (get_bound _ _ _ Hp), Hp. cbn [truthy].
        rewrite sql_equals_true. split; [tauto|].
        intros [H|[_ (f & Hf & _)]]; [done|].
        rewrite Hnil in Hf. by apply elem_of_nil in Hf.
      * rewrite holds_accessGroup_owner
          by (done || apply (hasOwnerFields_bound fs w uid Hb)).
        rewrite (get_bound _ _ _ Hp), Hp. cbn [truthy].
        rewrite andb_true_l, orb_true_iff.
        rewrite (existsb_owner fs w uid row Hb), sql_equals_true. tauto. }
    exists w. split; [done|]. split; [done|]. split; [done|]. split; [done|].
    intros query console b Hrun Hkeys row.
    rewrite (returned_selection this user w query console b Hc Hrun)
      by (intros k Hk; by apply (proj1 (Forall_forall _ _) Hkeys)).
    by rewrite Hrows.
  - set (w := (<["isPublished":=Bool true]> ∅ : Obj)) in *.
    assert (Hp : w !! "isPublished" = Some (Bool true)) by apply lookup_insert_eq.
    assert (Hrows : forall row,
      matches (restricted this (Some w)) row = true <->
      row !! "isPublished" = Some (Bool true) \/
      false = true /\ exists f, f ∈ fs /\ row !! f = Some (Num (Int uid))).
    { intros row. rewrite matches_restricted. fold fs.
      rewrite holds_accessGroup_plain.
      * rewrite (get_bound _ _ _ Hp), Hp. cbn [truthy].
        rewrite sql_equals_true. split; [tauto|]. by intros [H|[H _]].
      * destruct (decide (fs = [])) as [Hnil|Hne]; [by right|left].
        destruct (exists_last Hne) as (fs' & f & Efs).
        apply (hasOwnerFields_unbound fs w f).
        -- rewrite Efs. apply elem_of_app. right. apply head_elem_of.
        -- unfold w. rewrite lookup_insert_ne; [done|].
           intros <-. apply Hpub. rewrite Efs. apply elem_of_app. right.
           apply head_elem_of. }
    exists w. split; [done|]. split; [done|]. split; [done|]. split; [done|].
    intros query console b Hrun Hkeys row.
    rewrite (returned_selection this user w query console b Hc Hrun)
      by (intros k Hk; by apply (proj1 (Forall_forall _ _) Hkeys)).
    by rewrite Hrows.
Qed.
End AccessClaims.

(** ** The create and update handlers *)
Section HandlerClaims.
Import JS TypeORM CrudController.

(** Claim C7.  The entity handed to [save] by an update has the [id] and
    the [authorId] of the current entity and the acting user's id as
    [moderatorId]; any other field has the submitted value when one was
    submitted and the current value otherwise; and the handler returns
    what the store has saved. *)
Theorem updateContentEntity_merges (this : CrudController.t)
    (user : UserEntity.t)
    (currentEntity newEntity : Obj) (console : list ConsoleEntry) :
  let persisted := mergeUpdate user currentEntity newEntity in
  get persisted "id" = get currentEntity "id" /\
  get persisted "authorId" = get currentEntity "authorId" /\
  get persisted "moderatorId" = Num (Int (UserEntity.id user)) /\
  (forall k, k <> "id" -> k <> "authorId" -> k <> "moderatorId" ->
     persisted !! k =
     match newEntity !! k with
     | Some v => Some v
     | None => currentEntity !! k
     end) /\
  (forall stored,
     Repository.save (repository this) persisted = Repository.Saved stored ->
     updateContentEntity this user currentEntity newEntity console =
     (Return (Some stored), console)).
Proof.
  cbn zeta. unfold mergeUpdate, get. repeat split.
  - rewrite lookup_union, !lookup_insert_ne, lookup_insert_eq by done.
    by destruct (currentEntity !! "id").
  - rewrite lookup_union, lookup_insert_ne, lookup_insert_eq by done.
    by destruct (currentEntity !! "authorId").
  - rewrite lookup_union, lookup_insert_eq.
    by destruct (currentEntity !! "moderatorId").
  - intros k H1 H2 H3. rewrite lookup_union, !lookup_insert_ne by done.
    destruct (newEntity !! k), (currentEntity !! k); done.
  - intros stored Hs. unfold updateContentEntity, mergeUpdate, get.
    by rewrite Hs.
Qed.

(** Claim C8.  When the store rejects the entity of a create, the
    handler throws [ConflictException] with the duplicate-entity
    message if the error's code is [ER_DUP_ENTRY], logging nothing;
    for any other error it logs the error and throws
    [UnprocessableEntityException] with the generic message, which
    does not depend on the error. *)
Theorem createContentEntity_failure (this : CrudController.t) (entity : Obj)
    (user : UserEntity.t) (now : Z) (console : list ConsoleEntry) (e : Obj) :
  Repository.save (repository this) (stamp user entity) = Repository.Rejected e ->
  (get e "code" = Str "ER_DUP_ENTRY" ->
     createContentEntity this entity user now console =
     (Throw (ConflictException duplicateMessage), console)) /\
  (get e "code" <> Str "ER_DUP_ENTRY" ->
     createContentEntity this entity user now console =
     (Throw (UnprocessableEntityException genericMessage),
      (console ++ [ConsoleLog now e])%list)).
Proof.
  intros Hs. unfold createContentEntity. rewrite Hs. split; intros Hc.
  - by rewrite (proj2 (strict_eq_string_iff _ _) Hc).
  - destruct (strict_eq_string (get e "code") "ER_DUP_ENTRY") eqn:E; [|done].
    by apply strict_eq_string_iff in E.
Qed.

(** Claim C9.  When the store rejects the entity of an update, the
    handler writes the error to the console and returns normally,
    with no value. *)
Theorem updateContentEntity_failure_silent (this : CrudController.t)
    (user : UserEntity.t)
    (currentEntity newEntity : Obj) (console : list ConsoleEntry) (e : Obj) :
  Repository.save (repository this) (mergeUpdate user currentEntity newEntity)
    = Repository.Rejected e ->
  updateContentEntity this user currentEntity newEntity console =
  (Return None, (console ++ [ConsoleError e])%list).
Proof. intros Hs. unfold updateContentEntity. by rewrite Hs. Qed.
End HandlerClaims.

(** ** The claims on the concrete controller *)
Section Instances.
Import JS TypeORM CrudController Fixture Cases.
Import ContentPermissionsKeys.

(** A query without filter lets every row pass. *)
Lemma passes_no_filter (query : Obj) (row : Row) :
  Forall (fun k => k ∈ reservedKeys) (keys query) -> passes query row.
Proof.
  intros H k v Hk Hres. destruct Hres.
  apply (proj1 (Forall_forall _ _) H). apply elem_of_keys. by eexists.
Qed.

(** Claim C1 on a user without role. *)
Lemma getQueryBuilder_denied_unauthorized_witness :
  getQueryBuilder (articles accepting) stranger search false [] =
  {| completion := Throw UnauthorizedException;
     query_after := search; console_after := [] |}.
Proof.
  apply (proj1 (proj2 (getQueryBuilder_denied_unauthorized
                         (articles accepting) stranger))).
  vm_compute. reflexivity.
Defined.

(** Claim C3 fails on the code for a caller who filters on an owner
    column.  User 7 holds view-own alone, and the compiled object binds
    [authorId] to 7; with the query [{authorId: 8}] the returned builder
    has the owner terms of the claim, but the name that the term on
    [authorId] reads is bound to 8, the caller's value: the builder
    selects the row that user 8 wrote and moderates, and not the draft
    that user 7 wrote. *)
Theorem owner_term_reads_caller_value :
  let w : Obj := <["authorId" := Num (Int 7)]> {[ "moderatorId" := Num (Int 7) ]} in
  UserEntity.id writer = 7 /\
  getWhereRestrictionsByPermissions (articles accepting) writer = Some w /\
  draftOf7 !! "authorId" = Some (Num (Int 7)) /\
  postOf8 !! "authorId" = Some (Num (Int 8)) /\
  postOf8 !! "moderatorId" = Some (Num (Int 8)) /\
  match
    completion (getQueryBuilder (articles accepting) writer authorEight false [])
  with
  | Return b =>
      map (fun c => (c.1, sql c.2)) (wheres b) =
        [(Simple,
          "((entity.authorId = :authorId OR entity.moderatorId = :moderatorId))");
         (AndWhere, "entity.authorId = :authorId")] /\
      parameters b !! "authorId" = Some (Num (Int 8)) /\
      matches b draftOf7 = false /\
      matches b postOf8 = true
  | Throw _ => False
  end.
Proof.
  cbn zeta. repeat (split; [vm_compute; reflexivity|]).
  vm_compute. repeat split.
Qed.

(** Claim C5, amended, on [?limit=10&page=2]: ten rows are taken, twenty
    skipped. *)
Lemma getQueryBuilder_pagination_witness :
  exists b,
    completion (getQueryBuilder (articles accepting) writer thirdPage false [])
      = Return b /\
    take b = Some (Num (Int 10)) /\
    skip b = Some (Exactly (Num (Int 20))).
Proof.
  destruct (completion
              (getQueryBuilder (articles accepting) writer thirdPage false []))
    as [b|e] eqn:Hb; [|vm_compute in Hb; discriminate Hb].
  exists b. split; [reflexivity|].
  destruct (getQueryBuilder_pagination (articles accepting) writer thirdPage
              false [] b Hb) as (_ & _ & Hlimit & _).
  destruct (Hlimit 10) as (_ & Hsmall & Hskip).
  - vm_compute. reflexivity.
  - vm_compute. reflexivity.
  - split.
    + apply Hsmall. lia.
    + destruct Hskip as [_ Hpage]; [vm_compute; reflexivity|].
      apply (Hpage 2); [vm_compute; reflexivity..|]. vm_compute. discriminate.
Defined.

(** Claim C5 as stated fails: a limit of 150 is supplied, but the order
    is one that the builder refuses, so the run stops at line 242: no
    limit is assembled and no warning is logged. *)
Lemma invalid_order_stops_before_pagination :
  truthy (get sideways "limit") = true /\
  parseInt (get sideways "limit") = Int 150 /\
  getQueryBuilder (articles accepting) reader sideways false [] =
  {| completion := Throw (TypeORMError OrderNotAscDesc);
     query_after := sideways; console_after := [] |}.
Proof. repeat split; vm_compute; reflexivity. Qed.

(** Claim C6, amended, on a search query. *)
Lemma getQueryBuilder_caller_filters_witness :
  exists b,
    completion (getQueryBuilder (articles accepting) writer search false [])
      = Return b /\
    query_after (getQueryBuilder (articles accepting) writer search false [])
      !! "limit" = None.
Proof.
  destruct (completion
              (getQueryBuilder (articles accepting) writer search false []))
    as [b|e] eqn:Hb; [|vm_compute in Hb; discriminate Hb].
  exists b. split; [reflexivity|].
  destruct (getQueryBuilder_caller_filters (articles accepting) writer search
              false [] b Hb) as (Hreserved & _).
  apply Hreserved. compute_done.
Defined.

(** Claim C6 as stated fails: on [?limit=many&title=x] the builder
    refuses the limit, so the run stops at line 258: no filter is made
    of [title], and the query object is left with a limit and a page. *)
Lemma unreadable_limit_leaves_reserved_keys :
  manyRows !! "title" = Some (Str "x") /\
  getQueryBuilder (articles accepting) reader manyRows false [] =
  {| completion := Throw (TypeORMError TakeNotANumber);
     query_after :=
       <["page" := Num (Int 0)]> (<["limit" := Num NaN]> manyRows);
     console_after := [] |}.
Proof. split; vm_compute; reflexivity. Qed.

(** Claim C10, amended, on a user without role: a row that is neither
    published nor theirs is selected. *)
Lemma getQueryBuilder_bypass_witness :
  exists b,
    completion (getQueryBuilder (articles accepting) stranger thirdPage true [])
      = Return b /\
    matches b draftOf8 = true.
Proof.
  destruct (getQueryBuilder_bypass (articles accepting) stranger thirdPage [])
    as ([Hreturns _] & _ & Hb); [vm_compute; reflexivity|].
  destruct Hreturns as [b Hrun]; [vm_compute; reflexivity|].
  exists b. split; [exact Hrun|].
  destruct (Hb b Hrun) as (_ & _ & _ & _ & Hall & _).
  apply Hall. vm_compute. repeat constructor; compute_done.
Defined.

(** Claim C10 as stated fails: with the bypass, a user without role is
    not refused, but the call fails all the same on a query that
    repeats its order. *)
Lemma bypass_can_fail :
  getWhereRestrictionsByPermissions (articles accepting) stranger = None /\
  getQueryBuilder (articles accepting) stranger twoOrders true [] =
  {| completion := Throw TypeError;
     query_after := twoOrders; console_after := [] |}.
Proof. split; vm_compute; reflexivity. Qed.

(** Claim C2, amended, on a user with view-own alone: the draft they
    wrote is on the third page of their list. *)
Lemma own_scope_any_owner_field_witness :
  exists b,
    completion (getQueryBuilder (articles accepting) writer thirdPage false [])
      = Return b /\
    matches b draftOf7 = true.
Proof.
  destruct (own_scope_any_owner_field (articles accepting) writer)
    as (w & Hw & _ & _ & Hrows).
  - vm_compute. reflexivity.
  - vm_compute. reflexivity.
  - done.
  - destruct (completion
                (getQueryBuilder (articles accepting) writer thirdPage false []))
      as [b|e] eqn:Hb; [|vm_compute in Hb; discriminate Hb].
    exists b. split; [reflexivity|].
    assert (Ew : getWhereRestrictionsByPermissions (articles accepting) writer
              = Some (<["authorId" := Num (Int 7)]>
                        {[ "moderatorId" := Num (Int 7) ]}))
      by (vm_compute; reflexivity).
    rewrite Ew in Hw. injection Hw as <-.
    apply (Hrows thirdPage [] b Hb).
    + vm_compute. repeat constructor.
    + split.
      * exists "authorId". split; [compute_done|vm_compute; reflexivity].
      * apply passes_no_filter. vm_compute. repeat constructor; compute_done.
Defined.

(** Claim C2 as stated fails: a user with view-own alone is shown a row
    that they wrote and somebody else moderates, so the filter does not
    require every owner field to be theirs. *)
Lemma own_scope_not_conjunction :
  granted (articles accepting) ContentViewOwn writer = true /\
  granted (articles accepting) ContentViewAll writer = false /\
  exists b,
    completion (getQueryBuilder (articles accepting) writer ∅ false [])
      = Return b /\
    matches b draftOf7 = true /\
    ~ (forall f, f ∈ EntityFn.ownerFields (entityFn (articles accepting)) ->
         draftOf7 !! f = Some (Num (Int (UserEntity.id writer)))).
Proof.
  split; [vm_compute; reflexivity|]. split; [vm_compute; reflexivity|].
  eexists. split; [vm_compute; reflexivity|]. split; [vm_compute; reflexivity|].
  intros H. specialize (H "moderatorId").
  assert (draftOf7 !! "moderatorId" = Some (Num (Int 8))) as E
    by (vm_compute; reflexivity).
  rewrite E in H. discriminate H. compute_done.
Qed.

(** Claim C4, amended, on a user with view-all and view-own: their own
    draft is on the third page of their list. *)
Lemma published_scope_admits_own_rows_witness :
  exists b,
    completion
      (getQueryBuilder (articles accepting) contributor thirdPage false [])
      = Return b /\
    matches b draftOf7 = true.
Proof.
  destruct (published_scope_admits_own_rows (articles accepting) contributor)
    as (w & Hw & _ & _ & _ & Hrows).
  - vm_compute. reflexivity.
  - vm_compute. reflexivity.
  - compute_done.
  - destruct (completion
                (getQueryBuilder (articles accepting) contributor thirdPage
                   false []))
      as [b|e] eqn:Hb; [|vm_compute in Hb; discriminate Hb].
    exists b. split; [reflexivity|].
    assert (Ew : getWhereRestrictionsByPermissions (articles accepting)
                   contributor
              = Some (<["authorId" := Num (Int 7)]>
                        (<["moderatorId" := Num (Int 7)]>
                           {[ "isPublished" := Bool true ]})))
      by (vm_compute; reflexivity).
    rewrite Ew in Hw. injection Hw as <-.
    apply (Hrows thirdPage [] b Hb).
    + vm_compute. repeat constructor.
    + split.
      * right. split; [vm_compute; reflexivity|]. exists "authorId".
        split; [compute_done|vm_compute; reflexivity].
      * apply passes_no_filter. vm_compute. repeat constructor; compute_done.
Defined.

(** Claim C4 as stated fails: with view-own added to view-all, an
    unpublished row of the user is selected, which view-all alone does
    not select, and a published row of somebody else is selected
    too. *)
Lemma view_own_widens_published_scope :
  granted (articles accepting) ContentViewAll contributor = true /\
  granted (articles accepting) ContentViewUnpublished contributor = false /\
  granted (articles accepting) ContentViewOwn contributor = true /\
  granted (articles accepting) ContentViewAll reader = true /\
  granted (articles accepting) ContentViewUnpublished reader = false /\
  granted (articles accepting) ContentViewOwn reader = false /\
  exists both all,
    completion (getQueryBuilder (articles accepting) contributor ∅ false [])
      = Return both /\
    completion (getQueryBuilder (articles accepting) reader ∅ false [])
      = Return all /\
    draftOf7 !! "isPublished" = Some (Bool false) /\
    matches both draftOf7 = true /\
    matches all draftOf7 = false /\
    postOf8 !! "authorId" = Some (Num (Int 8)) /\
    postOf8 !! "moderatorId" = Some (Num (Int 8)) /\
    matches both postOf8 = true.
Proof.
  repeat (split; [vm_compute; reflexivity|]).
  eexists _, _. repeat (split; [vm_compute; reflexivity|]).
  vm_compute; reflexivity.
Qed.

(** Claim C7 on the current entity [{id: 5, authorId: 3}] and the
    submitted [{title: "x"}]. *)
Lemma updateContentEntity_merges_witness :
  mergeUpdate (userWith 9 []) current submitted !! "title" = Some (Str "x").
Proof.
  destruct (updateContentEntity_merges (articles accepting) (userWith 9 []) current
              submitted []) as (_ & _ & _ & Hother & _).
  rewrite Hother; [vm_compute; reflexivity|compute_done..].
Defined.

(** Claim C8 on a store that reports a duplicate key, and on one that
    reports a lock timeout. *)
Lemma createContentEntity_failure_witness :
  createContentEntity (articles (rejecting duplicateKey)) submitted writer 0 [] =
  (Throw (ConflictException duplicateMessage), []) /\
  createContentEntity (articles (rejecting lockTimeout)) submitted writer 0 [] =
  (Throw (UnprocessableEntityException genericMessage),
   [ConsoleLog 0 lockTimeout]).
Proof.
  split.
  - apply (createContentEntity_failure (articles (rejecting duplicateKey))
             submitted writer 0 [] duplicateKey).
    + vm_compute. reflexivity.
    + vm_compute. reflexivity.
  - apply (createContentEntity_failure (articles (rejecting lockTimeout))
             submitted writer 0 [] lockTimeout).
    + vm_compute. reflexivity.
    + vm_compute. discriminate.
Defined.

(** Claim C9 on a store that reports a lock timeout. *)
Lemma updateContentEntity_failure_silent_witness :
  updateContentEntity (articles (rejecting lockTimeout)) writer current
    submitted [] =
  (Return None, [ConsoleError lockTimeout]).
Proof.
  apply (updateContentEntity_failure_silent (articles (rejecting lockTimeout)) writer
           current submitted [] lockTimeout).
  vm_compute. reflexivity.
Defined.
End Instances.

(** ** Further properties of the controller *)

Section CompiledObject.
Import JS TypeORM CrudController.
Import ContentPermissionsKeys.

Lemma bindOwnerFields_lookup (fs : list string) (uid : Z) (w : Obj)
    (k : string) (v : value) :
  bindOwnerFields fs uid w !! k = Some v ->
  (k ∈ fs /\ v = Num (Int uid)) \/ ((k ∉ fs) /\ w !! k = Some v).
Proof.
  intros H. destruct (decide (k ∈ fs)) as [Hin|Hout].
  - left. rewrite bindOwnerFields_bound in H by done. split; congruence.
  - right. by rewrite bindOwnerFields_other in H.
Qed.

(** The compiled object holds nothing but the publication flag, bound to
    [true], and owner fields, bound to the user's id. *)
Theorem compiled_object_contents (this : CrudController.t)
    (user : UserEntity.t) (w : Obj) (k : string) (v : value) :
  getWhereRestrictionsByPermissions this user = Some w ->
  w !! k = Some v ->
  (k = "isPublished" /\ v = Bool true /\
   granted this ContentViewAll user = true /\
   granted this ContentViewUnpublished user = false)
  \/ (k ∈ EntityFn.ownerFields (entityFn this) /\
      v = Num (Int (UserEntity.id user)) /\
      granted this ContentViewOwn user = true).
Proof.
  rewrite compiled_cases. cbn zeta.
  destruct (granted this ContentViewAll user),
           (granted this ContentViewUnpublished user),
           (granted this ContentViewOwn user); intros [= <-] Hk;
    try (by rewrite lookup_empty in Hk).
  - apply bindOwnerFields_lookup in Hk as [[Hin ->]|[Hout Hk]]; [by right|].
    left. destruct (decide (k = "isPublished")) as [->|Hne].
    + rewrite lookup_insert_eq in Hk. by injection Hk as <-.
    + by rewrite lookup_insert_ne, lookup_empty in Hk.
  - left. destruct (decide (k = "isPublished")) as [->|Hne].
    + rewrite lookup_insert_eq in Hk. by injection Hk as <-.
    + by rewrite lookup_insert_ne, lookup_empty in Hk.
  - apply bindOwnerFields_lookup in Hk as [[Hin ->]|[Hout Hk]]; [by right|].
    by rewrite lookup_empty in Hk.
  - apply bindOwnerFields_lookup in Hk as [[Hin ->]|[Hout Hk]]; [by right|].
    by rewrite lookup_empty in Hk.
Qed.

Lemma bindOwnerFields_empty (fs : list string) (uid : Z) (w : Obj) :
  bindOwnerFields fs uid w = ∅ <-> fs = [] /\ w = ∅.
Proof.
  split.
  - intros H. destruct fs as [|f fs]; [done|].
    assert (bindOwnerFields (f :: fs) uid w !! f = Some (Num (Int uid))) as E
      by (apply bindOwnerFields_bound, head_elem_of).
    by rewrite H, lookup_empty in E.
  - by intros [-> ->].
Qed.

(** The compiled object is empty exactly for a user with view-all and
    view-unpublished, and for a user with view-own alone on a resource
    without owner field. *)
Theorem compiled_object_empty (this : CrudController.t) (user : UserEntity.t) :
  getWhereRestrictionsByPermissions this user = Some ∅ <->
  (granted this ContentViewAll user = true /\
   granted this ContentViewUnpublished user = true)
  \/ (granted this ContentViewAll user = false /\
      granted this ContentViewOwn user = true /\
      EntityFn.ownerFields (entityFn this) = []).
Proof.
  rewrite compiled_cases. cbn zeta.
  assert (Hne : (<["isPublished":=Bool true]> ∅ : Obj) <> ∅).
  { intros H. assert ((<["isPublished":=Bool true]> ∅ : Obj) !! "isPublished"
      = Some (Bool true)) as E by apply lookup_insert_eq.
    by rewrite H, lookup_empty in E. }
  destruct (granted this ContentViewAll user),
           (granted this ContentViewUnpublished user),
           (granted this ContentViewOwn user); split.
  all: try (intros [[? ?]|[? [? Hfs]]]; try discriminate;
            try rewrite Hfs; reflexivity).
  all: intros H; try discriminate H; try injection H as H;
    try apply bindOwnerFields_empty in H as [H1 H2]; try done; auto.
Qed.

Lemma restrict_empty (fs : list string) (a : string) :
  restrict fs ∅ (createQueryBuilder a) = createQueryBuilder a.
Proof.
  unfold restrict. rewrite hasOwnerFields_forallb.
  destruct fs as [|f fs]; cbn; unfold where_, brackets, setParameters,
    set_wheres, createQueryBuilder; cbn; by rewrite ?(left_id_L ∅ (∪)).
Qed.

(** A user whose compiled object is empty gets, on every query, the run
    that the bypass gives for a denied user. *)
Theorem unrestricted_is_bypass (this : CrudController.t)
    (user user' : UserEntity.t) (query : Obj) (console : list ConsoleEntry) :
  getWhereRestrictionsByPermissions this user = Some ∅ ->
  getWhereRestrictionsByPermissions this user' = None ->
  getQueryBuilder this user query false console =
  getQueryBuilder this user' query true console.
Proof.
  intros H H'. unfold getQueryBuilder. rewrite H, H'. cbn [denied andb negb].
  unfold restricted. by rewrite restrict_empty.
Qed.
End CompiledObject.

Section Assembly.
Import JS TypeORM CrudController.
Import ContentPermissionsKeys.


(** The builder never takes more than 100 rows, and a run writes
    nothing to the console but one warning, which it writes only when
    it has lowered the limit to 100. *)
Theorem limit_never_exceeds_maximum (this : CrudController.t)
    (user : UserEntity.t) (query : Obj) (skipPermission : bool)
    (console : list ConsoleEntry) (b : SelectQueryBuilder) :
  let run := getQueryBuilder this user query skipPermission console in
  completion run = Return b ->
  exists n, take b = Some (Num n) /\
    (forall z, n = Int z -> z <= 100) /\
    (console_after run = console \/
     console_after run = (console ++ [ConsoleWarn limitWarning])%list /\
     n = Int 100).
Proof.
  cbn zeta. intros Hb.
  destruct (getQueryBuilder_returned this user query skipPermission console b Hb)
    as (_ & _ & Hrun & _ & _ & _ & _ & Ht & _).
  rewrite Hrun. cbn [console_after].
  rewrite Ht, paginate_limit, paginate_console.
  destruct (truthy (get query "limit")); cbn [andb].
  - unfold gt, maxLimit.
    destruct (parseInt (get query "limit")) as [z|] eqn:Ez.
    + destruct (100 <? z) eqn:E; [apply Z.ltb_lt in E|apply Z.ltb_ge in E].
      * exists (Int 100). split; [done|]. split; [by intros ? [= <-]|by right].
      * exists (Int z). split; [done|]. split; [by intros ? [= <-]|by left].
    + exists NaN. split; [done|]. split; [done|by left].
  - exists (Int 25). split; [done|]. split; [by intros ? [= <-]|by left].
Qed.

(** A supplied limit in which [parseInt] reads no number is not replaced
    by the default: on a request that is not denied, whose restriction
    joins nothing and whose sort the builder accepts, the builder
    refuses that limit at line 258.  The run throws after the limit, as
    NaN, and the page have been written to the caller's query object,
    and before the reserved keys are deleted; nothing is logged. *)
Theorem unreadable_limit_is_refused (this : CrudController.t)
    (user : UserEntity.t) (query : Obj) (skipPermission : bool)
    (console : list ConsoleEntry) :
  let extraWhere := getWhereRestrictionsByPermissions this user in
  denied extraWhere skipPermission = false ->
  joins (restricted this extraWhere) = [] ->
  sortAccepted query = true ->
  truthy (get query "limit") = true ->
  parseInt (get query "limit") = NaN ->
  getQueryBuilder this user query skipPermission console =
  {| completion := Throw (TypeORMError TakeNotANumber);
     query_after :=
       <["page" := or_else (get query "page") (Num (Int 0))]>
         (<["limit" := Num NaN]> query);
     console_after := console |}.
Proof.
  cbn zeta. intros Hgo _ Hs Hl Hp. unfold getQueryBuilder. rewrite Hgo.
  unfold sortAccepted in Hs.
  destruct (truthy (get query "orderBy") && truthy (get query "order"));
    cbn [negb orb] in Hs.
  1: destruct (get query "order"); try discriminate Hs;
       unfold addOrderBy; rewrite Hs.
  all: unfold paginate; rewrite Hl, Hp; cbn [gt];
    unfold setTake, get;
    rewrite (lookup_insert_ne _ "page" "limit"), lookup_insert_eq,
      (lookup_insert_ne _ "limit" "page") by done;
    cbn [default from_option id notANumber]; reflexivity.
Qed.

(** A run uses up the sort and pagination keys of the caller's object:
    run again on the object that a returning run leaves behind,
    [getQueryBuilder] returns a builder with the same conditions, joins
    and parameters, but without sort, with the default limit of 25 and
    no offset, and leaves the object and the console as they are. *)
Theorem second_run_falls_back_to_defaults (this : CrudController.t)
    (user : UserEntity.t) (query : Obj) (skipPermission : bool)
    (console : list ConsoleEntry) (b1 : SelectQueryBuilder) :
  let first := getQueryBuilder this user query skipPermission console in
  let second :=
    getQueryBuilder this user (query_after first) skipPermission
      (console_after first) in
  completion first = Return b1 ->
  exists b2,
    completion second = Return b2 /\
    query_after second = query_after first /\
    console_after second = console_after first /\
    wheres b2 = wheres b1 /\ joins b2 = joins b1 /\
    parameters b2 = parameters b1 /\
    orderBys b2 = [] /\
    take b2 = Some (Num (Int 25)) /\
    skip b2 = Some (Exactly (Num (Int 0))).
Proof.
  cbn zeta. intros Hb1.
  destruct (getQueryBuilder_returned this user query skipPermission console
              b1 Hb1) as (Hgo & _ & Hrun & Hw1 & Hp1 & Hj1 & _).
  rewrite Hrun. cbn [completion query_after console_after].
  set (q2 := stripReserved (paginate query console).1) in *.
  set (c2 := (paginate query console).2).
  assert (Hund : forall k,
    k = "limit" \/ k = "page" \/ k = "orderBy" \/ k = "order" \/ k = "offset" ->
    get q2 k = Undefined).
  { intros k Hk. apply stripped_get. by apply reserved_elem. }
  assert (Hoff : get (paginate q2 []).1 "offset" = Undefined).
  { unfold get. rewrite paginate_other by done. apply (Hund "offset"). tauto. }
  assert (Hacc : accepted q2 = true).
  { unfold accepted, sortAccepted, pageAccepted, offsetOf.
    rewrite Hoff, paginate_limit, paginate_page.
    rewrite (Hund "orderBy"), (Hund "limit") by tauto. reflexivity. }
  destruct (getQueryBuilder_accepts this user q2 skipPermission c2 Hgo Hacc)
    as (b2 & Hb2).
  destruct (getQueryBuilder_returned this user q2 skipPermission c2 b2 Hb2)
    as (_ & _ & Hrun2 & Hw2 & Hp2 & Hj2 & Ho2 & Ht2 & Hs2).
  rewrite Hrun2. cbn [completion query_after console_after].
  assert (Hq : stripReserved (paginate q2 c2).1 = q2) by apply stripped_again.
  rewrite Hq in *.
  exists b2. split; [done|]. split; [done|]. split.
  { rewrite paginate_console, (Hund "limit") by tauto. done. }
  split; [by rewrite Hw1, Hw2|]. split; [by rewrite Hj1, Hj2|].
  split; [by rewrite Hp1, Hp2|]. split.
  { rewrite Ho2. unfold ordering. rewrite (Hund "orderBy") by tauto. done. }
  split.
  { rewrite Ht2, paginate_limit, (Hund "limit") by tauto. done. }
  rewrite Hs2. unfold offsetOf.
  rewrite (paginate_console_free q2 c2), Hoff.
  rewrite paginate_limit, paginate_page, (Hund "limit") by tauto. reflexivity.
Qed.

(** In a returned builder, every key of the caller's query that is not
    reserved is bound, in the parameters, to the caller's value,
    whatever the access restriction has bound under the same name. *)
Theorem caller_value_is_bound (this : CrudController.t)
    (user : UserEntity.t) (query : Obj) (skipPermission : bool)
    (console : list ConsoleEntry) (b : SelectQueryBuilder)
    (k : string) (v : value) :
  completion (getQueryBuilder this user query skipPermission console)
    = Return b ->
  query !! k = Some v ->
  k ∉ reservedKeys ->
  parameters b !! k = Some v.
Proof.
  intros Hb Hk Hres.
  destruct (getQueryBuilder_returned this user query skipPermission console
              b Hb) as (_ & _ & _ & _ & Hp & _).
  rewrite Hp.
  assert (Hq : stripReserved (paginate query console).1 !! k = Some v).
  { rewrite stripped_lookup. by rewrite decide_False. }
  assert (Hin : k ∈ keys (stripReserved (paginate query console).1)).
  { apply elem_of_keys. by eexists. }
  destruct (keys _) as [|k0 ks]; [by apply elem_of_nil in Hin|].
  by apply lookup_union_Some_l.
Qed.
End Assembly.

Section Selection.
Import JS TypeORM CrudController.
Import ContentPermissionsKeys.

(** For a query of plain keys, none of them bound in the compiled
    object, a returned builder selects exactly the rows that the access
    restriction selects and that pass every filter of the caller: such
    filters can only narrow what the restriction allows. *)
Theorem caller_filters_only_narrow (this : CrudController.t)
    (user : UserEntity.t) (w : Obj) (query : Obj)
    (console : list ConsoleEntry) (b : SelectQueryBuilder) :
  getWhereRestrictionsByPermissions this user = Some w ->
  completion (getQueryBuilder this user query false console) = Return b ->
  Forall (fun k => plain k = true /\ w !! k = None) (keys query) ->
  forall row,
    matches b row = true <->
    matches (restricted this (Some w)) row = true /\ passes query row.
Proof.
  intros Hw Hb Hkeys. apply (returned_selection this user w query console b Hw Hb).
  intros k Hk. by apply (proj1 (Forall_forall _ _) Hkeys).
Qed.
End Selection.

Section BranchTable.
Import JS TypeORM CrudController.
Import ContentPermissionsKeys.

(** For a resource whose owner fields do not include
    [isPublished], and a user granted view-all or view-own: the
    compiled object binds every owner field to the user's id when the
    owner restriction is in force, and [isPublished] to [true] when the
    publication restriction is; the builder's restriction is one group
    around [inner], or nothing when [inner] is empty; with at least one
    owner field [inner] is the branch table of the specification, that
    is one equality term per owner field, OR'd together in a group onto
    which the publication clause is OR'd only when it is in force, the
    bare publication clause or nothing without owner restriction; with
    no owner field [inner] holds no owner term.  The owner group has one
    term per owner field, in order, each handed the compiled object,
    and all but the first attached with OR. *)
Theorem access_group_is_branch_table (this : CrudController.t)
    (user : UserEntity.t) :
  let fs := EntityFn.ownerFields (entityFn this) in
  let uid := UserEntity.id user in
  let viewAll := granted this ContentViewAll user in
  let viewUnpublished := granted this ContentViewUnpublished user in
  let viewOwn := granted this ContentViewOwn user in
  let ownerRestriction :=
    viewAll && negb viewUnpublished && viewOwn || negb viewAll && viewOwn in
  let publication := viewAll && negb viewUnpublished in
  "isPublished" ∉ fs ->
  viewAll || viewOwn = true ->
  exists w inner,
    getWhereRestrictionsByPermissions this user = Some w /\
    (ownerRestriction = true -> forall f, f ∈ fs -> w !! f = Some (Num (Int uid))) /\
    (publication = true -> w !! "isPublished" = Some (Bool true)) /\
    wheres (restricted this (Some w)) =
      match inner with
      | [] => []
      | _ => [(Simple, Brackets inner w)]
      end /\
    (fs <> [] ->
     inner = Spec.accessPredicate viewAll viewUnpublished viewOwn fs w) /\
    (fs = [] ->
     map snd inner = if publication then [Equals "isPublished" w] else []) /\
    map snd (ownerGroup fs w) = map (fun f => Equals f w) fs /\
    Forall (fun c => c.1 = OrWhere) (tail (ownerGroup fs w)).
Proof.
  cbn zeta. intros Hpub Hview.
  pose proof (compiled_cases this user) as Hc. cbn zeta in Hc.
  set (fs := EntityFn.ownerFields (entityFn this)) in *.
  set (uid := UserEntity.id user) in *.
  assert (Hhead : forall f fs', fs = f :: fs' -> f <> "isPublished").
  { intros f fs' E ->. apply Hpub. rewrite E. apply head_elem_of. }
  assert (Hshape : forall w,
    wheres (restricted this (Some w)) =
    match accessGroup fs w with
    | [] => []
    | _ :: _ => [(Simple, Brackets (accessGroup fs w) w)]
    end).
  { intros w. unfold restricted. fold fs.
    destruct (restrict_wheres fs w (createQueryBuilder "entity")) as [-> _].
    by destruct (accessGroup fs w). }
  destruct (granted this ContentViewAll user) eqn:EA,
           (granted this ContentViewUnpublished user) eqn:EU,
           (granted this ContentViewOwn user) eqn:EO;
    try discriminate Hview; cbn [andb orb negb];
    match type of Hc with _ = Some ?w0 => exists w0, (accessGroup fs w0) end;
    refine (conj Hc (conj _ (conj _ (conj (Hshape _) (conj _ (conj _
             (conj (ownerGroup_terms fs _) (ownerGroup_tail fs _)))))))).
  - (* viewAll, viewUnpublished, viewOwn: nothing is restricted *)
    done.
  - done.
  - intros Hne. destruct fs as [|f fs'] eqn:E; [done|].
    by rewrite (accessGroup_unbound (f :: fs') ∅ f) by (apply head_elem_of || done).
  - by intros ->.
  - (* viewAll, viewUnpublished *)
    done.
  - done.
  - intros Hne. destruct fs as [|f fs'] eqn:E; [done|].
    by rewrite (accessGroup_unbound (f :: fs') ∅ f) by (apply head_elem_of || done).
  - by intros ->.
  - (* viewAll, viewOwn: the owner group, OR the publication clause *)
    intros _ f Hf. by apply bindOwnerFields_bound.
  - intros _. rewrite bindOwnerFields_other by done. apply lookup_insert_eq.
  - intros Hne.
    rewrite (accessGroup_bound fs _ uid) by (intros; by apply bindOwnerFields_bound).
    rewrite (get_bound _ _ (Bool true))
      by (rewrite bindOwnerFields_other by done; apply lookup_insert_eq).
    by destruct fs.
  - by intros ->.
  - (* viewAll alone: the bare publication clause *)
    done.
  - intros _. apply lookup_insert_eq.
  - intros Hne. destruct fs as [|f fs'] eqn:E; [done|].
    rewrite (accessGroup_unbound (f :: fs') _ f).
    + by rewrite (get_bound _ _ (Bool true)) by apply lookup_insert_eq.
    + apply head_elem_of.
    + rewrite lookup_insert_ne; [done|]. intros Heq. by apply (Hhead f fs').
  - by intros ->.
  - (* viewUnpublished, viewOwn: the owner group alone *)
    intros _ f Hf. by apply bindOwnerFields_bound.
  - done.
  - intros Hne.
    rewrite (accessGroup_bound fs _ uid) by (intros; by apply bindOwnerFields_bound).
    rewrite get_unbound by (by rewrite bindOwnerFields_other).
    by destruct fs.
  - by intros ->.
  - (* viewOwn alone: the owner group alone *)
    intros _ f Hf. by apply bindOwnerFields_bound.
  - done.
  - intros Hne.
    rewrite (accessGroup_bound fs _ uid) by (intros; by apply bindOwnerFields_bound).
    rewrite get_unbound by (by rewrite bindOwnerFields_other).
    by destruct fs.
  - by intros ->.
Qed.

End BranchTable.

Section HandlerFacts.
Import JS TypeORM CrudController Handlers.
Import ContentPermissionsKeys.

(** Whatever author and moderator the submitted entity names, a create
    stores the acting user's id under both for a registered user and
    [null] under both for another; every other field, the id included,
    is stored as submitted; and the handler returns what the store has
    saved, writing nothing to the console. *)
Theorem create_stamps_author (this : CrudController.t) (entity : Obj)
    (user : UserEntity.t) (now : Z) (console : list ConsoleEntry) :
  let stamped := stamp user entity in
  let owner :=
    if UserEntity.isAuthorized user then Num (Int (UserEntity.id user))
    else Null in
  stamped !! "authorId" = Some owner /\
  stamped !! "moderatorId" = Some owner /\
  (forall k, k <> "authorId" -> k <> "moderatorId" ->
     stamped !! k = entity !! k) /\
  stamped = stamp user (delete "authorId" (delete "moderatorId" entity)) /\
  (forall stored,
     Repository.save (repository this) stamped = Repository.Saved stored ->
     createContentEntity this entity user now console = (Return stored, console)).
Proof.
  cbn zeta.
  assert (Hcreate : forall stored,
    Repository.save (repository this) (stamp user entity)
      = Repository.Saved stored ->
    createContentEntity this entity user now console = (Return stored, console)).
  { intros stored Hs. unfold createContentEntity. by rewrite Hs. }
  refine (conj _ (conj _ (conj _ (conj _ Hcreate)))); clear Hcreate;
    unfold stamp; destruct (UserEntity.isAuthorized user).
  1,2: by rewrite lookup_insert_ne, lookup_insert_eq.
  1,2: apply lookup_insert_eq.
  1,2: intros k H1 H2; by rewrite !lookup_insert_ne.
  all: apply map_eq; intros k;
    destruct (decide (k = "moderatorId")) as [->|H1];
    [by rewrite !lookup_insert_eq|];
    destruct (decide (k = "authorId")) as [->|H2];
    [by rewrite !(lookup_insert_ne _ "moderatorId"), !lookup_insert_eq|];
    by rewrite !lookup_insert_ne, !lookup_delete_ne.
Qed.

(** The entity that an update stores does not depend on the [id],
    [authorId] and [moderatorId] that the submitted entity names. *)
Theorem update_ignores_forged_fields (user : UserEntity.t)
    (currentEntity newEntity : Obj) :
  mergeUpdate user currentEntity newEntity =
  mergeUpdate user currentEntity
    (delete "id" (delete "authorId" (delete "moderatorId" newEntity))).
Proof.
  unfold mergeUpdate. f_equal. apply map_eq. intros k.
  destruct (decide (k = "moderatorId")) as [->|H1];
    [by rewrite !lookup_insert_eq|].
  destruct (decide (k = "authorId")) as [->|H2];
    [by rewrite !(lookup_insert_ne _ "moderatorId"), !lookup_insert_eq|].
  destruct (decide (k = "id")) as [->|H3].
  - by rewrite !(lookup_insert_ne _ "moderatorId"),
       !(lookup_insert_ne _ "authorId"), !lookup_insert_eq.
  - by rewrite !lookup_insert_ne, !lookup_delete_ne.
Qed.

Lemma mergeUpdate_forced (user : UserEntity.t) (currentEntity newEntity : Obj) :
  get (mergeUpdate user currentEntity newEntity) "id" = get currentEntity "id" /\
  get (mergeUpdate user currentEntity newEntity) "authorId"
    = get currentEntity "authorId".
Proof.
  unfold mergeUpdate, get. split.
  - rewrite lookup_union, !lookup_insert_ne, lookup_insert_eq by done.
    by destruct (currentEntity !! "id").
  - rewrite lookup_union, lookup_insert_ne, lookup_insert_eq by done.
    by destruct (currentEntity !! "authorId").
Qed.

(** An update keeps every field of the current entity, and submitting
    the same entity again by the same user changes nothing more. *)
Theorem update_keeps_fields_and_repeats (user : UserEntity.t)
    (currentEntity newEntity : Obj) :
  let persisted := mergeUpdate user currentEntity newEntity in
  (forall k, is_Some (currentEntity !! k) -> is_Some (persisted !! k)) /\
  mergeUpdate user persisted newEntity = persisted.
Proof.
  cbn zeta. split.
  - intros k Hk. unfold mergeUpdate. apply lookup_union_is_Some. by right.
  - destruct (mergeUpdate_forced user currentEntity newEntity) as (Hid & Ha).
    unfold mergeUpdate at 1. rewrite Hid, Ha.
    unfold mergeUpdate. by rewrite (assoc_L (∪)), (idemp_L (∪)).
Qed.
End HandlerFacts.

Section Listing.
Import JS TypeORM CrudController Handlers.
Import ContentPermissionsKeys.

Lemma returns_only_if_permitted (this : CrudController.t)
    (user : UserEntity.t) (query : Obj) (console : list ConsoleEntry)
    (b : SelectQueryBuilder) :
  completion (getQueryBuilder this user query false console) = Return b ->
  granted this ContentViewAll user = true \/
  granted this ContentViewOwn user = true.
Proof.
  unfold getQueryBuilder. rewrite compiled_cases. cbn zeta.
  destruct (granted this ContentViewAll user),
           (granted this ContentViewUnpublished user),
           (granted this ContentViewOwn user); auto; discriminate.
Qed.

(** The list and count handlers answer only a user granted view-all or
    view-own: they never ask for the bypass.  What they answer is what
    the store gives for the builder of [getQueryBuilder], which takes at
    most 100 rows, the count being wrapped as [{ total }]; any exception
    of [getQueryBuilder] is passed on, and the caller's query object and
    the console are left as [getQueryBuilder] leaves them. *)
Theorem list_and_count_require_view_permission (this : CrudController.t)
    (store : Executor.t) (user : UserEntity.t) (query : Obj)
    (console : list ConsoleEntry) :
  let run := getQueryBuilder this user query false console in
  let listed := loadContentEntities this store user query console in
  let counted := countContentEntities this store user query console in
  (forall rows, completion listed = Return rows ->
     (granted this ContentViewAll user = true \/
      granted this ContentViewOwn user = true) /\
     exists b, completion run = Return b /\
       rows = Executor.getMany store b) /\
  (forall result, completion counted = Return result ->
     (granted this ContentViewAll user = true \/
      granted this ContentViewOwn user = true) /\
     exists b, completion run = Return b /\
       result = {[ "total" := Num (Int (Executor.getCount store b)) ]}) /\
  (forall e, completion run = Throw e ->
     completion listed = Throw e /\ completion counted = Throw e) /\
  query_after listed = query_after run /\
  query_after counted = query_after run /\
  console_after listed = console_after run /\
  console_after counted = console_after run.
Proof.
  cbn zeta. unfold loadContentEntities, countContentEntities.
  cbn [completion query_after console_after].
  pose proof (returns_only_if_permitted this user query console) as Hperm.
  destruct (completion (getQueryBuilder this user query false console))
    as [b|e] eqn:Hrun.
  - repeat split; try done.
    + by apply (Hperm b).
    + injection H as <-. by exists b.
    + by apply (Hperm b).
    + injection H as <-. by exists b.
  - repeat split; try done; by injection H as <-.
Qed.
End Listing.

Section Coverage.
Import JS TypeORM CrudController Handlers Fixture Cases.
Import ContentPermissionsKeys.

(** The author binding of a user with view-own alone. *)
Lemma compiled_object_contents_witness :
  granted (articles accepting) ContentViewOwn writer = true.
Proof.
  destruct (compiled_object_contents (articles accepting) writer
              (<["authorId" := Num (Int 7)]> {[ "moderatorId" := Num (Int 7) ]})
              "authorId" (Num (Int 7)))
    as [(H & _)|(_ & _ & H)].
  - vm_compute. reflexivity.
  - vm_compute. reflexivity.
  - discriminate H.
  - exact H.
Defined.

(** View-own alone on a resource without owner field. *)
Lemma compiled_object_empty_witness :
  getWhereRestrictionsByPermissions (pages accepting) writer = Some ∅.
Proof.
  apply (compiled_object_empty (pages accepting) writer). right.
  repeat split; vm_compute; reflexivity.
Defined.

(** A user with view-all and view-unpublished, and a user without role. *)
Lemma unrestricted_is_bypass_witness :
  getQueryBuilder (articles accepting) editor search false [] =
  getQueryBuilder (articles accepting) stranger search true [].
Proof.
  apply unrestricted_is_bypass; vm_compute; reflexivity.
Defined.


(** A search that asks for 150 rows. *)
Lemma limit_never_exceeds_maximum_witness :
  exists b n,
    completion (getQueryBuilder (articles accepting) reader search false [])
      = Return b /\
    take b = Some (Num n) /\ (forall z, n = Int z -> z <= 100).
Proof.
  destruct (completion
              (getQueryBuilder (articles accepting) reader search false []))
    as [b|e] eqn:Hb; [|vm_compute in Hb; discriminate Hb].
  destruct (limit_never_exceeds_maximum (articles accepting) reader search
              false [] b Hb) as (n & Ht & Hn & _).
  exists b, n. split; [reflexivity|]. split; [exact Ht|exact Hn].
Defined.

(** [?limit=many&title=x] *)
Lemma unreadable_limit_is_refused_witness :
  getQueryBuilder (articles accepting) reader manyRows false [] =
  {| completion := Throw (TypeORMError TakeNotANumber);
     query_after :=
       <["page" := Num (Int 0)]> (<["limit" := Num NaN]> manyRows);
     console_after := [] |}.
Proof.
  apply (unreadable_limit_is_refused (articles accepting) reader manyRows
           false []); vm_compute; reflexivity.
Defined.

(** The search run twice on the same object: the second run takes 25
    rows. *)
Lemma second_run_falls_back_to_defaults_witness :
  exists b2,
    completion
      (getQueryBuilder (articles accepting) reader
         (query_after
            (getQueryBuilder (articles accepting) reader search false []))
         false
         (console_after
            (getQueryBuilder (articles accepting) reader search false [])))
      = Return b2 /\
    take b2 = Some (Num (Int 25)).
Proof.
  destruct (completion
              (getQueryBuilder (articles accepting) reader search false []))
    as [b1|e] eqn:Hb; [|vm_compute in Hb; discriminate Hb].
  destruct (second_run_falls_back_to_defaults (articles accepting) reader
              search false [] b1 Hb)
    as (b2 & H2 & _ & _ & _ & _ & _ & _ & Ht & _).
  exists b2. split; [exact H2|exact Ht].
Defined.

(** [{authorId: 8}] by a user with view-own alone. *)
Lemma caller_value_is_bound_witness :
  exists b,
    completion
      (getQueryBuilder (articles accepting) writer authorEight false [])
      = Return b /\
    parameters b !! "authorId" = Some (Num (Int 8)).
Proof.
  destruct (completion
              (getQueryBuilder (articles accepting) writer authorEight false []))
    as [b|e] eqn:Hb; [|vm_compute in Hb; discriminate Hb].
  exists b. split; [reflexivity|].
  apply (caller_value_is_bound (articles accepting) writer authorEight false []
           b "authorId" (Num (Int 8)) Hb); [vm_compute; reflexivity|compute_done].
Defined.

(** The third page of the list of a user with view-own alone does not
    hold a row of somebody else. *)
Lemma caller_filters_only_narrow_witness :
  exists b,
    completion (getQueryBuilder (articles accepting) writer thirdPage false [])
      = Return b /\
    matches b postOf8 <> true.
Proof.
  destruct (completion
              (getQueryBuilder (articles accepting) writer thirdPage false []))
    as [b|e] eqn:Hb; [|vm_compute in Hb; discriminate Hb].
  exists b. split; [reflexivity|].
  rewrite (caller_filters_only_narrow (articles accepting) writer
             (<["authorId" := Num (Int 7)]> {[ "moderatorId" := Num (Int 7) ]})
             thirdPage [] b).
  - intros [H _]. vm_compute in H. discriminate H.
  - vm_compute. reflexivity.
  - exact Hb.
  - vm_compute. repeat constructor.
Defined.

(** A user with view-all and view-own. *)
Lemma access_group_is_branch_table_witness :
  exists w,
    getWhereRestrictionsByPermissions (articles accepting) contributor = Some w /\
    wheres (restricted (articles accepting) (Some w)) =
    [(Simple,
      Brackets
        [(Simple,
          Brackets
            [(Simple, Equals "authorId" w); (OrWhere, Equals "moderatorId" w)]
            w);
         (OrWhere, Equals "isPublished" w)] w)].
Proof.
  destruct (access_group_is_branch_table (articles accepting) contributor)
    as (w & inner & Hw & _ & _ & Hshape & Hinner & _).
  - compute_done.
  - vm_compute. reflexivity.
  - exists w. split; [exact Hw|]. rewrite Hshape, Hinner by done. reflexivity.
Defined.

(** A submitted entity that names its author, by a registered user and
    by an anonymous one. *)
Lemma create_stamps_author_witness :
  stamp writer forged !! "authorId" = Some (Num (Int 7)) /\
  stamp anonymous forged !! "authorId" = Some Null /\
  stamp writer forged !! "id" = Some (Num (Int 1)).
Proof.
  destruct (create_stamps_author (articles accepting) forged writer 0 [])
    as (Ha & _ & Hk & _).
  destruct (create_stamps_author (articles accepting) forged anonymous 0 [])
    as (Ha' & _).
  split; [exact Ha|]. split; [exact Ha'|].
  rewrite Hk by done. vm_compute. reflexivity.
Defined.

(** The current entity [{id: 5, authorId: 3}] keeps its [authorId]
    through an update that names another one. *)
Lemma update_keeps_fields_and_repeats_witness :
  is_Some (mergeUpdate (userWith 9 []) current forged !! "authorId").
Proof.
  destruct (update_keeps_fields_and_repeats (userWith 9 []) current forged)
    as (Hkeep & _).
  apply Hkeep. vm_compute. by eexists.
Defined.

(** A user without role is answered by neither handler; a user with
    view-all is given the rows of the store. *)
Lemma list_and_count_require_view_permission_witness :
  (completion (loadContentEntities (articles accepting) twoRows stranger search [])
     = Throw UnauthorizedException /\
   completion (countContentEntities (articles accepting) twoRows stranger search [])
     = Throw UnauthorizedException) /\
  exists b,
    completion (getQueryBuilder (articles accepting) reader search false [])
      = Return b /\
    [draftOf7; postOf8] = Executor.getMany twoRows b.
Proof.
  split.
  - destruct (list_and_count_require_view_permission (articles accepting)
                twoRows stranger search []) as (_ & _ & Hthrow & _).
    apply Hthrow. vm_compute. reflexivity.
  - destruct (list_and_count_require_view_permission (articles accepting)
                twoRows reader search []) as (Hlist & _).
    apply (Hlist [draftOf7; postOf8]). vm_compute. reflexivity.
Defined.
End Coverage.
